(** * ATM: the account ledger and transaction engine of [Data/ATM.py]

    A shallow embedding of the Python program and the properties of its
    specification.  Conventions of the embedding:

    - a Python [str] is a Rocq [string] whose characters are the code points
      below 256 (the Latin-1 range); [len], [==], [str.isdigit] and
      [str.strip] are the ones of Python on that range;
    - amounts of money ([saldo], [monto], [retiros_diarios]) are exact
      integers of [Z];
    - every reading of the clock ([datetime.now()]) and every answer typed by
      the user is an explicit argument of the function that asks for it;
    - a dictionary keyed by account number is a [gmap string _];
    - the objects a method mutates are passed in and returned;
    - what is printed, and the text log, are left out: they change no object
      of the program;
    - [hashlib.sha256], [datetime.isoformat] and [datetime.fromisoformat]
      are written out; [json.dump] and [json.load] are taken as inverses,
      a file holding the document itself. *)

From Stdlib Require Import ZArith Lia Bool List Ascii String DecimalString.
From stdpp Require Import base option list strings gmap fin_maps.

Local Open Scope Z_scope.
#[local] Set Warnings "-register-all".

(** ** Text: the part of Python's [str] the program uses *)
Module Texto.

(** Code point of a character. *)
Definition ord (c : ascii) : Z := Z.of_nat (nat_of_ascii c).

(** The character with a given code point (below 256). *)
Definition chr (n : Z) : ascii := ascii_of_nat (Z.to_nat n).

(** [len(s)] *)
Definition len (s : string) : Z := Z.of_nat (String.length s).

(** The characters on which [str.isdigit] holds, among the code points
    below 256: the ASCII digits, and SUPERSCRIPT TWO (178), SUPERSCRIPT
    THREE (179) and SUPERSCRIPT ONE (185), whose Unicode numeric type is
    Digit. *)
Definition isdigit_char (c : ascii) : bool :=
  let n := ord c in
  ((48 <=? n) && (n <=? 57)) || (n =? 178) || (n =? 179) || (n =? 185).

(** The ASCII decimal digits ['0'] .. ['9']. *)
Definition decimal_char (c : ascii) : bool :=
  let n := ord c in (48 <=? n) && (n <=? 57).

(** [s.isdigit()]: every character is a digit and there is at least one. *)
Definition isdigit (s : string) : bool :=
  match list_ascii_of_string s with
  | [] => false
  | cs => forallb isdigit_char cs
  end.

(** Every character of [s] is an ASCII decimal digit. *)
Definition todos_decimales (s : string) : bool :=
  forallb decimal_char (list_ascii_of_string s).

(** [s.encode()]: the UTF-8 bytes of [s]. *)
Definition encode (s : string) : list Z :=
  flat_map (fun c => let n := ord c in
                     if n <? 128 then [n]
                     else [Z.lor 192 (Z.shiftr n 6); Z.lor 128 (Z.land n 63)])
           (list_ascii_of_string s).

(** [not s] on a string: emptiness. *)
Definition vacio (s : string) : bool :=
  match s with EmptyString => true | _ => false end.

End Texto.

(** ** [hashlib.sha256]: FIPS 180-4 on 32-bit words held in [Z] *)
Module SHA256.

Definition w32 (x : Z) : Z := Z.land x 0xffffffff.
Definition rotr (n x : Z) : Z :=
  Z.lor (Z.shiftr x n) (w32 (Z.shiftl x (32 - n))).
Definition neg32 (x : Z) : Z := Z.lxor x 0xffffffff.

Definition Ch (x y z : Z) : Z := Z.lxor (Z.land x y) (Z.land (neg32 x) z).
Definition Maj (x y z : Z) : Z :=
  Z.lxor (Z.lxor (Z.land x y) (Z.land x z)) (Z.land y z).
Definition Sigma0 (x : Z) : Z := Z.lxor (Z.lxor (rotr 2 x) (rotr 13 x)) (rotr 22 x).
Definition Sigma1 (x : Z) : Z := Z.lxor (Z.lxor (rotr 6 x) (rotr 11 x)) (rotr 25 x).
Definition sigma0 (x : Z) : Z := Z.lxor (Z.lxor (rotr 7 x) (rotr 18 x)) (Z.shiftr x 3).
Definition sigma1 (x : Z) : Z := Z.lxor (Z.lxor (rotr 17 x) (rotr 19 x)) (Z.shiftr x 10).

(** No number from 2 to [p - 1] divides [p]. *)
Definition es_primo (p : Z) : bool :=
  forallb (fun d => negb (p mod Z.of_nat d =? 0)) (seq 2 (Z.to_nat p - 2)).

(** The primes up to 311: the first 64. *)
Definition primos : list Z :=
  filter (fun p => es_primo p = true) (map Z.of_nat (seq 2 310)).

(** The integer part of the cube root of [n], for [n] below [2 ^ (3 * bits)]:
    its bits are settled from the highest down. *)
Fixpoint raiz_cubica (bits : nat) (n r : Z) : Z :=
  match bits with
  | O => r
  | S b =>
      let r' := r + 2 ^ Z.of_nat b in
      raiz_cubica b n (if r' * r' * r' <=? n then r' else r)
  end.

(** The first 32 bits of the fractional parts of the square roots of the
    first 8 primes. *)
Definition H0 : list Z :=
  Eval vm_compute in map (fun p => w32 (Z.sqrt (p * 2 ^ 64))) (firstn 8 primos).

(** The first 32 bits of the fractional parts of the cube roots of the first
    64 primes. *)
Definition K : list Z :=
  Eval vm_compute in map (fun p => w32 (raiz_cubica 35 (p * 2 ^ 96) 0)) primos.

(** Big-endian bytes of a number, [n] of them. *)
Fixpoint big_endian (n : nat) (x : Z) : list Z :=
  match n with
  | O => []
  | S k => big_endian k (Z.shiftr x 8) ++ [Z.land x 255]
  end.

(** The message followed by the bit 1, zeros and its length in bits, a
    multiple of 64 bytes long. *)
Definition relleno (msg : list Z) : list Z :=
  let l := Z.of_nat (length msg) in
  msg ++ [128] ++ repeat 0 (Z.to_nat ((55 - l) mod 64)) ++ big_endian 8 (8 * l).

(** The first [n] 32-bit big-endian words of a byte sequence. *)
Fixpoint palabras (n : nat) (bs : list Z) : list Z :=
  match n, bs with
  | S k, a :: b :: c :: d :: r =>
      (Z.shiftl a 24 + Z.shiftl b 16 + Z.shiftl c 8 + d) :: palabras k r
  | _, _ => []
  end.

(** The message schedule: [n] more words after those of [w]. *)
Fixpoint extender (n : nat) (w : list Z) : list Z :=
  match n with
  | O => w
  | S k =>
      let t := length w in
      let x i := nth (t - i)%nat w 0 in
      extender k (w ++ [w32 (sigma1 (x 2%nat) + x 7%nat + sigma0 (x 15%nat) + x 16%nat)])
  end.

Definition ronda (v : list Z) (kw : Z * Z) : list Z :=
  match v with
  | [a; b; c; d; e; f; g; h] =>
      let t1 := w32 (h + Sigma1 e + Ch e f g + fst kw + snd kw) in
      let t2 := w32 (Sigma0 a + Maj a b c) in
      [w32 (t1 + t2); a; b; c; w32 (d + t1); e; f; g]
  | _ => v
  end.

(** One 64-byte block folded into the chaining value. *)
Definition comprimir (h : list Z) (bloque : list Z) : list Z :=
  let w := extender 48 (palabras 16 bloque) in
  let v := fold_left ronda (combine K w) h in
  map (fun p => w32 (fst p + snd p)) (combine h v).

Fixpoint bloques (n : nat) (bs : list Z) (h : list Z) : list Z :=
  match n with
  | O => h
  | S k => bloques k (skipn 64 bs) (comprimir h (firstn 64 bs))
  end.

(** [hashlib.sha256(msg).digest()] as eight 32-bit words. *)
Definition sha256 (msg : list Z) : list Z :=
  let bs := relleno msg in
  bloques (Nat.div (length bs) 64) bs H0.

Definition hex_char (d : Z) : ascii :=
  if d <? 10 then Texto.chr (48 + d) else Texto.chr (87 + d).

(** The [n] lower hexadecimal digits of [x], most significant first. *)
Fixpoint hex (n : nat) (x : Z) : list ascii :=
  match n with
  | O => []
  | S k => hex k (Z.shiftr x 4) ++ [hex_char (Z.land x 15)]
  end.

(** [hashlib.sha256(msg).hexdigest()] *)
Definition hexdigest (msg : list Z) : string :=
  string_of_list_ascii (flat_map (hex 8) (sha256 msg)).

End SHA256.

(** ** [SistemaSeguridad] *)
Module SistemaSeguridad.

(** [hashlib.sha256(pin.encode()).hexdigest()] *)
Definition hash_pin (pin : string) : string :=
  SHA256.hexdigest (Texto.encode pin).

(** [SistemaSeguridad.hash_pin(pin) == pin_hasheado] *)
Definition verificar_pin (pin pin_hasheado : string) : bool :=
  bool_decide (hash_pin pin = pin_hasheado).

(** [pin.isdigit() and len(pin) == 4] *)
Definition validar_formato_pin (pin : string) : bool :=
  Texto.isdigit pin && (Texto.len pin =? 4).

End SistemaSeguridad.

(** ** [datetime.date] and [datetime.datetime] (naive), with the ISO 8601
    text form the program stores them in *)
Module Fechas.

Record date := mkdate { year : Z; month : Z; day : Z }.

Record datetime := mkdatetime {
  to_date : date;              (* [.date()] *)
  hour : Z; minute : Z; second : Z; microsecond : Z }.

#[global] Instance date_eq_dec : EqDecision date.
Proof. solve_decision. Defined.
#[global] Instance datetime_eq_dec : EqDecision datetime.
Proof. solve_decision. Defined.

Definition bisiesto (y : Z) : bool :=
  (y mod 4 =? 0) && (negb (y mod 100 =? 0) || (y mod 400 =? 0)).

Definition dias_del_mes (y m : Z) : Z :=
  if m =? 2 then (if bisiesto y then 29 else 28)
  else if (m =? 4) || (m =? 6) || (m =? 9) || (m =? 11) then 30 else 31.

(** The values a [date] object can hold. *)
Definition fecha_valida (d : date) : bool :=
  (1 <=? year d) && (year d <=? 9999) && (1 <=? month d) && (month d <=? 12)
  && (1 <=? day d) && (day d <=? dias_del_mes (year d) (month d)).

(** The values a [datetime] object can hold. *)
Definition datetime_valido (t : datetime) : bool :=
  fecha_valida (to_date t)
  && (0 <=? hour t) && (hour t <? 24) && (0 <=? minute t) && (minute t <? 60)
  && (0 <=? second t) && (second t <? 60)
  && (0 <=? microsecond t) && (microsecond t <? 1000000).

Definition car_digito (d : Z) : ascii := Texto.chr (48 + d).

Definition valor_digito (c : ascii) : option Z :=
  if Texto.decimal_char c then Some (Texto.ord c - 48) else None.

(** [v] written with [n] decimal digits, zero padded (["%0nd"]). *)
Fixpoint digitos (n : nat) (v : Z) : list ascii :=
  match n with
  | O => []
  | S k => car_digito (v / 10 ^ Z.of_nat k) :: digitos k (v mod 10 ^ Z.of_nat k)
  end.

Definition fecha_chars (d : date) (resto : list ascii) : list ascii :=
  digitos 4 (year d) ++ "-"%char :: digitos 2 (month d) ++ "-"%char
    :: digitos 2 (day d) ++ resto.

Definition hora_chars (t : datetime) : list ascii :=
  "T"%char :: digitos 2 (hour t) ++ ":"%char :: digitos 2 (minute t) ++ ":"%char
    :: digitos 2 (second t)
    ++ (if microsecond t =? 0 then [] else "."%char :: digitos 6 (microsecond t)).

(** [date.isoformat()]: [YYYY-MM-DD]. *)
Definition date_isoformat (d : date) : string :=
  string_of_list_ascii (fecha_chars d []).

(** [datetime.isoformat()]: [YYYY-MM-DDTHH:MM:SS], followed by [.ffffff]
    when the microseconds are not zero. *)
Definition isoformat (t : datetime) : string :=
  string_of_list_ascii (fecha_chars (to_date t) (hora_chars t)).

Fixpoint leer_digitos (n : nat) (acc : Z) (l : list ascii) : option (Z * list ascii) :=
  match n with
  | O => Some (acc, l)
  | S k =>
      match l with
      | c :: r => d ← valor_digito c; leer_digitos k (10 * acc + d) r
      | [] => None
      end
  end.

Definition leer_car (c : ascii) (l : list ascii) : option (list ascii) :=
  match l with
  | x :: r => if decide (x = c) then Some r else None
  | [] => None
  end.

Definition leer_fecha (l : list ascii) : option (date * list ascii) :=
  '(y, l) ← leer_digitos 4 0 l;
  l ← leer_car "-" l;
  '(m, l) ← leer_digitos 2 0 l;
  l ← leer_car "-" l;
  '(d, l) ← leer_digitos 2 0 l;
  let f := mkdate y m d in
  if fecha_valida f then Some (f, l) else None.

Definition leer_hora (f : date) (l : list ascii) : option datetime :=
  l ← leer_car "T" l;
  '(h, l) ← leer_digitos 2 0 l;
  l ← leer_car ":" l;
  '(mi, l) ← leer_digitos 2 0 l;
  l ← leer_car ":" l;
  '(s, l) ← leer_digitos 2 0 l;
  '(us, l) ← match l with
             | [] => Some (0, [])
             | _ => l ← leer_car "." l; leer_digitos 6 0 l
             end;
  let t := mkdatetime f h mi s us in
  match l with
  | [] => if datetime_valido t then Some t else None
  | _ => None
  end.

(** [datetime.fromisoformat(s)], [None] standing for [ValueError].  It
    reads the forms [isoformat] writes: a date alone (midnight of that
    day), or a date, [T], a time to the second and optional microseconds.
    Python versions differ in what further forms they read; they are a
    [ValueError] here. *)
Definition fromisoformat (s : string) : option datetime :=
  '(f, l) ← leer_fecha (list_ascii_of_string s);
  match l with
  | [] => Some (mkdatetime f 0 0 0 0)
  | _ => leer_hora f l
  end.

End Fechas.

(** ** Exceptions, and the values [json.load] returns *)

(** The exceptions the loading code can raise. *)
Inductive excepcion := KeyError | ValueError | TypeError | AttributeError.

(** The outcome of a piece of Python code: a value, an exception, or
    [SinModelo] when the code goes on with an object that has an attribute
    of a type the records below have no value for (a [saldo] that is a
    string, say; Python stores it and fails later, where it is first used). *)
Inductive resultado (A : Type) :=
| Ok (a : A)
| Lanza (e : excepcion)
| SinModelo.
Arguments Ok {A} a.
Arguments Lanza {A} e.
Arguments SinModelo {A}.

#[global] Instance resultado_bind : MBind resultado :=
  fun A B f m =>
    match m with
    | Ok a => f a
    | Lanza e => Lanza e
    | SinModelo => SinModelo
    end.

Module Json.

(** A decoded JSON document; numbers are the integers, and an object is the
    list of its members, each key once (a key is looked up from the front). *)
Inductive json :=
| JNull
| JBool (b : bool)
| JNum (n : Z)
| JStr (s : string)
| JList (l : list json)
| JDict (d : list (string * json)).

Fixpoint assoc (k : string) (d : list (string * json)) : option json :=
  match d with
  | [] => None
  | (k', v) :: r => if decide (k' = k) then Some v else assoc k r
  end.

(** [data[k]]: [KeyError] on a dictionary without the key, [TypeError] on
    anything that is not a dictionary. *)
Definition get (data : json) (k : string) : resultado json :=
  match data with
  | JDict d => match assoc k d with Some v => Ok v | None => Lanza KeyError end
  | _ => Lanza TypeError
  end.

(** [data.get(k, default)]: only a dictionary has the method. *)
Definition get_default (data : json) (k : string) (default : json) : resultado json :=
  match data with
  | JDict d => Ok (match assoc k d with Some v => v | None => default end)
  | _ => Lanza AttributeError
  end.

(** The elements [for x in v] goes through: those of a list, the keys of a
    dictionary, the characters of a string; nothing else is iterable. *)
Definition iterar (v : json) : resultado (list json) :=
  match v with
  | JList l => Ok l
  | JDict d => Ok (map (fun kv => JStr (fst kv)) d)
  | JStr s => Ok (map (fun c => JStr (String c EmptyString)) (list_ascii_of_string s))
  | _ => Lanza TypeError
  end.

(** Truth value of [v] in a condition. *)
Definition truthy (v : json) : bool :=
  match v with
  | JNull => false
  | JBool b => b
  | JNum n => negb (n =? 0)
  | JStr s => negb (Texto.vacio s)
  | JList l => match l with [] => false | _ => true end
  | JDict d => match d with [] => false | _ => true end
  end.

(** [datetime.fromisoformat(v)]: [TypeError] unless [v] is a string. *)
Definition fromisoformat (v : json) : resultado Fechas.datetime :=
  match v with
  | JStr s => match Fechas.fromisoformat s with
              | Some t => Ok t
              | None => Lanza ValueError
              end
  | _ => Lanza TypeError
  end.

(** A value read where the records hold a string, a number, a boolean. *)
Definition como_str (v : json) : resultado string :=
  match v with JStr s => Ok s | _ => SinModelo end.
Definition como_num (v : json) : resultado Z :=
  match v with JNum n => Ok n | _ => SinModelo end.
Definition como_bool (v : json) : resultado bool :=
  match v with JBool b => Ok b | _ => SinModelo end.

End Json.
Import Json.

Import Fechas.

(** ** [ConfiguracionATM] *)
Module ConfiguracionATM.
Definition SALDO_INICIAL : Z := 0.
Definition LIMITE_RETIRO_DIARIO : Z := 200000.
Definition LIMITE_RETIRO_TRANSACCION : Z := 50000.
Definition INTENTOS_PIN_MAXIMOS : nat := 3.
End ConfiguracionATM.
Import ConfiguracionATM.

(** ** [TipoTransaccion], [EstadoTransaccion] and [Transaccion] *)
Inductive TipoTransaccion := RETIRO | DEPOSITO | CONSULTA | CAMBIO_PIN | LOGIN.
Inductive EstadoTransaccion := EXITOSA | FALLIDA | CANCELADA.

#[global] Instance TipoTransaccion_eq_dec : EqDecision TipoTransaccion.
Proof. solve_decision. Defined.
#[global] Instance EstadoTransaccion_eq_dec : EqDecision EstadoTransaccion.
Proof. solve_decision. Defined.

(** The [.value] of a member, and the member of a value: [TipoTransaccion(v)]
    raises [ValueError] when no member has the value [v]. *)
Definition TipoTransaccion_value (t : TipoTransaccion) : string :=
  match t with
  | RETIRO => "RETIRO" | DEPOSITO => "DEPOSITO" | CONSULTA => "CONSULTA"
  | CAMBIO_PIN => "CAMBIO_PIN" | LOGIN => "LOGIN"
  end.

Definition TipoTransaccion_de (v : json) : resultado TipoTransaccion :=
  match v with
  | JStr s =>
      if decide (s = "RETIRO"%string) then Ok RETIRO
      else if decide (s = "DEPOSITO"%string) then Ok DEPOSITO
      else if decide (s = "CONSULTA"%string) then Ok CONSULTA
      else if decide (s = "CAMBIO_PIN"%string) then Ok CAMBIO_PIN
      else if decide (s = "LOGIN"%string) then Ok LOGIN
      else Lanza ValueError
  | _ => Lanza ValueError
  end.

Definition EstadoTransaccion_value (e : EstadoTransaccion) : string :=
  match e with
  | EXITOSA => "EXITOSA" | FALLIDA => "FALLIDA" | CANCELADA => "CANCELADA"
  end.

Definition EstadoTransaccion_de (v : json) : resultado EstadoTransaccion :=
  match v with
  | JStr s =>
      if decide (s = "EXITOSA"%string) then Ok EXITOSA
      else if decide (s = "FALLIDA"%string) then Ok FALLIDA
      else if decide (s = "CANCELADA"%string) then Ok CANCELADA
      else Lanza ValueError
  | _ => Lanza ValueError
  end.

Module Transaccion.

Record t := mk {
  timestamp : datetime;
  tipo : TipoTransaccion;
  monto : Z;
  estado : EstadoTransaccion;
  cuenta : string;
  detalle : string }.

(** [Transaccion(tipo, monto, estado, cuenta, detalle)], built at [ahora]. *)
Definition nueva (ahora : datetime) (tipo : TipoTransaccion) (monto : Z)
    (estado : EstadoTransaccion) (cuenta detalle : string) : t :=
  mk ahora tipo monto estado cuenta detalle.

Definition to_dict (x : t) : json :=
  JDict [ ("timestamp"%string, JStr (isoformat (timestamp x)));
          ("tipo"%string, JStr (TipoTransaccion_value (tipo x)));
          ("monto"%string, JNum (monto x));
          ("estado"%string, JStr (EstadoTransaccion_value (estado x)));
          ("cuenta"%string, JStr (cuenta x));
          ("detalle"%string, JStr (detalle x)) ].

(** [Transaccion.from_dict(data)]: the steps that can raise, in the order
    Python takes them, then the record. *)
Definition from_dict (data : json) : resultado t :=
  v_tipo ← get data "tipo";
  tipo ← TipoTransaccion_de v_tipo;
  v_monto ← get data "monto";
  v_estado ← get data "estado";
  estado ← EstadoTransaccion_de v_estado;
  v_cuenta ← get data "cuenta";
  v_detalle ← get data "detalle";
  v_timestamp ← get data "timestamp";
  timestamp ← Json.fromisoformat v_timestamp;
  monto ← como_num v_monto;
  cuenta ← como_str v_cuenta;
  detalle ← como_str v_detalle;
  Ok (mk timestamp tipo monto estado cuenta detalle).

End Transaccion.

(** ** [CuentaUsuario] *)
Module CuentaUsuario.

Record t := mk {
  numero_cuenta : string;
  pin_hash : string;
  saldo : Z;
  bloqueada : bool;
  intentos_fallidos : Z;
  ultimo_retiro_fecha : option date;
  retiros_diarios : Z;
  fecha_creacion : datetime }.

(** Assignments to one attribute. *)
Definition con_pin_hash (v : string) (c : t) : t :=
  mk (numero_cuenta c) v (saldo c) (bloqueada c) (intentos_fallidos c)
     (ultimo_retiro_fecha c) (retiros_diarios c) (fecha_creacion c).
Definition con_saldo (v : Z) (c : t) : t :=
  mk (numero_cuenta c) (pin_hash c) v (bloqueada c) (intentos_fallidos c)
     (ultimo_retiro_fecha c) (retiros_diarios c) (fecha_creacion c).
Definition con_bloqueada (v : bool) (c : t) : t :=
  mk (numero_cuenta c) (pin_hash c) (saldo c) v (intentos_fallidos c)
     (ultimo_retiro_fecha c) (retiros_diarios c) (fecha_creacion c).
Definition con_intentos_fallidos (v : Z) (c : t) : t :=
  mk (numero_cuenta c) (pin_hash c) (saldo c) (bloqueada c) v
     (ultimo_retiro_fecha c) (retiros_diarios c) (fecha_creacion c).
Definition con_ultimo_retiro_fecha (v : option date) (c : t) : t :=
  mk (numero_cuenta c) (pin_hash c) (saldo c) (bloqueada c) (intentos_fallidos c)
     v (retiros_diarios c) (fecha_creacion c).
Definition con_retiros_diarios (v : Z) (c : t) : t :=
  mk (numero_cuenta c) (pin_hash c) (saldo c) (bloqueada c) (intentos_fallidos c)
     (ultimo_retiro_fecha c) v (fecha_creacion c).

(** [CuentaUsuario(numero_cuenta, pin, saldo_inicial)], built at [ahora]. *)
Definition nueva (numero_cuenta pin : string) (saldo_inicial : Z) (ahora : datetime) : t :=
  mk numero_cuenta (SistemaSeguridad.hash_pin pin) saldo_inicial false 0 None 0 ahora.

Definition verificar_pin (pin : string) (c : t) : bool :=
  SistemaSeguridad.verificar_pin pin (pin_hash c).

Definition cambiar_pin (pin_actual pin_nuevo : string) (c : t) : bool * t :=
  if verificar_pin pin_actual c && SistemaSeguridad.validar_formato_pin pin_nuevo
  then (true, con_pin_hash (SistemaSeguridad.hash_pin pin_nuevo) c)
  else (false, c).

Definition msg_saldo_insuficiente : string := "Saldo insuficiente".
(** ["Monto excede límite por transacción ($50,000)"] *)
Definition msg_limite_transaccion : string :=
  "Monto excede l" +:+ String "237" "mite por transacci" +:+ String "243" "n ($50,000)".
(** ["Excede límite diario de retiros ($200,000)"] *)
Definition msg_limite_diario : string :=
  "Excede l" +:+ String "237" "mite diario de retiros ($200,000)".
Definition msg_ok : string := "OK".

(** [puede_retirar(monto)] when the clock says the day is [hoy]: the answer,
    and the account as the call leaves it. *)
Definition puede_retirar (monto : Z) (hoy : date) (c : t) : (bool * string) * t :=
  if saldo c <? monto then ((false, msg_saldo_insuficiente), c)
  else if monto >? LIMITE_RETIRO_TRANSACCION then ((false, msg_limite_transaccion), c)
  else
    let c1 := if bool_decide (ultimo_retiro_fecha c <> Some hoy)
              then con_ultimo_retiro_fecha (Some hoy) (con_retiros_diarios 0 c)
              else c in
    if retiros_diarios c1 + monto >? LIMITE_RETIRO_DIARIO
    then ((false, msg_limite_diario), c1)
    else ((true, msg_ok), c1).

Definition retirar (monto : Z) (hoy : date) (c : t) : bool * t :=
  let '((puede, _), c1) := puede_retirar monto hoy c in
  if puede
  then (true, con_retiros_diarios (retiros_diarios c1 + monto)
                (con_saldo (saldo c1 - monto) c1))
  else (false, c1).

Definition depositar (monto : Z) (c : t) : bool * t :=
  if monto >? 0 then (true, con_saldo (saldo c + monto) c) else (false, c).

Definition to_dict (c : t) : json :=
  JDict [ ("numero_cuenta"%string, JStr (numero_cuenta c));
          ("pin_hash"%string, JStr (pin_hash c));
          ("saldo"%string, JNum (saldo c));
          ("bloqueada"%string, JBool (bloqueada c));
          ("intentos_fallidos"%string, JNum (intentos_fallidos c));
          ("ultimo_retiro_fecha"%string,
             match ultimo_retiro_fecha c with
             | Some d => JStr (date_isoformat d)
             | None => JNull
             end);
          ("retiros_diarios"%string, JNum (retiros_diarios c));
          ("fecha_creacion"%string, JStr (isoformat (fecha_creacion c))) ].

(** [CuentaUsuario.from_dict(data)]: the steps that can raise, in the order
    Python takes them, then the record. *)
Definition from_dict (data : json) : resultado t :=
  v_numero ← get data "numero_cuenta";
  v_pin ← get data "pin_hash";
  v_saldo ← get data "saldo";
  v_bloqueada ← get data "bloqueada";
  v_intentos ← get data "intentos_fallidos";
  v_ultimo ← get data "ultimo_retiro_fecha";
  ultimo ← (if truthy v_ultimo
            then t ← Json.fromisoformat v_ultimo; Ok (Some (to_date t))
            else Ok None);
  v_retiros ← get data "retiros_diarios";
  v_creacion ← get data "fecha_creacion";
  creacion ← Json.fromisoformat v_creacion;
  numero ← como_str v_numero;
  pin ← como_str v_pin;
  saldo ← como_num v_saldo;
  bloqueada ← como_bool v_bloqueada;
  intentos ← como_num v_intentos;
  retiros ← como_num v_retiros;
  Ok (mk numero pin saldo bloqueada intentos ultimo retiros creacion).

End CuentaUsuario.

(** ** [GestorDatos]: the data file *)
Module GestorDatos.

(** The file [datos_atm.json]: absent, text that [json.load] rejects
    ([JSONDecodeError]), or the text of a JSON document ([json.dump] writes
    a document that [json.load] reads back). *)
Inductive archivo :=
| NoExiste
| Ilegible
| Documento (data : json).

(** What a call of [cargar_datos] ends in: the pair it returns, an exception
    it lets through, or a state with an object outside the model. *)
Inductive salida :=
| Devuelve (cuentas : gmap string CuentaUsuario.t) (transacciones : list Transaccion.t)
| Aborta (e : excepcion)
| FueraDeModelo.

(** [except (json.JSONDecodeError, KeyError, ValueError)] *)
Definition capturada (e : excepcion) : bool :=
  match e with
  | KeyError | ValueError => true
  | TypeError | AttributeError => false
  end.

(** The loop over the account records: the dictionary as the loop leaves it,
    whether it ran to the end or stopped at an exception. *)
Fixpoint cargar_cuentas (l : list json) (cuentas : gmap string CuentaUsuario.t)
    : gmap string CuentaUsuario.t * resultado unit :=
  match l with
  | [] => (cuentas, Ok tt)
  | cuenta_data :: r =>
      match CuentaUsuario.from_dict cuenta_data with
      | Ok cuenta => cargar_cuentas r (<[CuentaUsuario.numero_cuenta cuenta := cuenta]> cuentas)
      | Lanza e => (cuentas, Lanza e)
      | SinModelo => (cuentas, SinModelo)
      end
  end.

(** The loop over the transaction records. *)
Fixpoint cargar_transacciones (l : list json) (transacciones : list Transaccion.t)
    : list Transaccion.t * resultado unit :=
  match l with
  | [] => (transacciones, Ok tt)
  | trans_data :: r =>
      match Transaccion.from_dict trans_data with
      | Ok trans => cargar_transacciones r (transacciones ++ [trans])
      | Lanza e => (transacciones, Lanza e)
      | SinModelo => (transacciones, SinModelo)
      end
  end.

(** The body of the [try]: the two variables as it leaves them, and how it
    ended. *)
Definition cuerpo (data : json)
    : gmap string CuentaUsuario.t * list Transaccion.t * resultado unit :=
  match (v ← get_default data "cuentas" (JList []); iterar v) with
  | Ok l =>
      let '(cuentas, r) := cargar_cuentas l ∅ in
      match r with
      | Ok _ =>
          match (v ← get_default data "transacciones" (JList []); iterar v) with
          | Ok l' =>
              let '(transacciones, r') := cargar_transacciones l' [] in
              (cuentas, transacciones, r')
          | Lanza e => (cuentas, [], Lanza e)
          | SinModelo => (cuentas, [], SinModelo)
          end
      | _ => (cuentas, [], r)
      end
  | Lanza e => (∅, [], Lanza e)
  | SinModelo => (∅, [], SinModelo)
  end.

Definition cargar_datos (f : archivo) : salida :=
  match f with
  | NoExiste => Devuelve ∅ []
  | Ilegible => Devuelve ∅ []
  | Documento data =>
      let '(cuentas, transacciones, r) := cuerpo data in
      match r with
      | Ok _ => Devuelve cuentas transacciones
      | Lanza e => if capturada e then Devuelve cuentas transacciones else Aborta e
      | SinModelo => FueraDeModelo
      end
  end.

(** [l[-n:]] *)
Definition ultimas {A} (n : nat) (l : list A) : list A :=
  skipn (length l - n)%nat l.

(** [cuentas.values()] *)
Definition values (cuentas : gmap string CuentaUsuario.t) : list CuentaUsuario.t :=
  snd <$> map_to_list cuentas.

(** [guardar_datos(cuentas, transacciones)]: the file once written. *)
Definition guardar_datos (cuentas : gmap string CuentaUsuario.t)
    (transacciones : list Transaccion.t) : archivo :=
  Documento
    (JDict [ ("cuentas"%string, JList (map CuentaUsuario.to_dict (values cuentas)));
             ("transacciones"%string,
                JList (map Transaccion.to_dict (ultimas 1000 transacciones))) ]).

End GestorDatos.

(** ** [CajeroAutomatico]: the engine

    The engine's state is the objects it holds in memory.  [cuenta_actual]
    is the key under which the session's account object sits in [cuentas]
    (an entry of the dictionary is never removed nor replaced by another
    object, so the key stands for the reference).  Printing, the text log
    and the writes of [guardar_datos] leave these objects as they are; the
    data file is [GestorDatos]'s.  A method that reads an attribute of
    [cuenta_actual] while it is [None] raises: it returns [None] here. *)
Module CajeroAutomatico.

Record t := mk {
  cuentas : gmap string CuentaUsuario.t;
  transacciones : list Transaccion.t;
  cuenta_actual : option string;
  sesion_activa : bool }.

Definition con_cuentas (v : gmap string CuentaUsuario.t) (s : t) : t :=
  mk v (transacciones s) (cuenta_actual s) (sesion_activa s).
Definition con_transacciones (v : list Transaccion.t) (s : t) : t :=
  mk (cuentas s) v (cuenta_actual s) (sesion_activa s).
Definition con_sesion (actual : option string) (activa : bool) (s : t) : t :=
  mk (cuentas s) (transacciones s) actual activa.

(** [cuentas[numero] = cuenta], also the state after a method changed the
    object [cuentas[numero]] into [cuenta]. *)
Definition poner_cuenta (numero : string) (cuenta : CuentaUsuario.t) (s : t) : t :=
  con_cuentas (<[numero := cuenta]> (cuentas s)) s.

(** The object [self.cuenta_actual]. *)
Definition cuenta_sesion (s : t) : option CuentaUsuario.t :=
  n ← cuenta_actual s; cuentas s !! n.

Definition registrar_transaccion (ahora : datetime) (tipo : TipoTransaccion)
    (monto : Z) (estado : EstadoTransaccion) (detalle : string) (s : t) : t :=
  let cuenta_id := match cuenta_sesion s with
                   | Some c => CuentaUsuario.numero_cuenta c
                   | None => "SISTEMA"%string
                   end in
  con_transacciones
    (transacciones s ++ [Transaccion.nueva ahora tipo monto estado cuenta_id detalle]) s.

Definition crear_cuenta_demo (ahora : datetime) (s : t) : t :=
  poner_cuenta "123456" (CuentaUsuario.nueva "123456" "1234" 100000 ahora) s.

(** [CajeroAutomatico()] over the data file [f]; [None] when [cargar_datos]
    does not return. *)
Definition init (f : GestorDatos.archivo) (ahora : datetime) : option t :=
  match GestorDatos.cargar_datos f with
  | GestorDatos.Devuelve cuentas transacciones =>
      let s := mk cuentas transacciones None false in
      Some (if decide (cuentas = ∅) then crear_cuenta_demo ahora s else s)
  | _ => None
  end.

(** The [for intento in range(INTENTOS_PIN_MAXIMOS)] loop of
    [autenticar_usuario] over the attempts left.  [pins] are the answers of
    [solicitar_pin], the empty string being its answer when the user
    interrupts (as when no answer is left). *)
Fixpoint pedir_pin (intentos : list nat) (pins : list string) (numero : string)
    (ahora : datetime) (s : t) : bool * t :=
  match intentos with
  | [] => (false, s)
  | intento :: intentos' =>
      let pin := hd ""%string pins in
      if Texto.vacio pin then (false, s)
      else
        match cuentas s !! numero with
        | None => (false, s)
        | Some cuenta =>
            if CuentaUsuario.verificar_pin pin cuenta then
              let s1 := con_sesion (Some numero) true s in
              let s2 := poner_cuenta numero (CuentaUsuario.con_intentos_fallidos 0 cuenta) s1 in
              (true, registrar_transaccion ahora LOGIN 0 EXITOSA "Login exitoso" s2)
            else
              let intentos_restantes :=
                Z.of_nat INTENTOS_PIN_MAXIMOS - Z.of_nat intento - 1 in
              let cuenta1 :=
                CuentaUsuario.con_intentos_fallidos
                  (CuentaUsuario.intentos_fallidos cuenta + 1) cuenta in
              let s1 :=
                if intentos_restantes >? 0 then poner_cuenta numero cuenta1 s
                else
                  registrar_transaccion ahora LOGIN 0 FALLIDA
                    "Cuenta bloqueada por intentos fallidos"
                    (poner_cuenta numero (CuentaUsuario.con_bloqueada true cuenta1) s) in
              pedir_pin intentos' (tl pins) numero ahora s1
        end
  end.

Definition autenticar_usuario (numero_cuenta : string) (pins : list string)
    (ahora : datetime) (s : t) : bool * t :=
  match cuentas s !! numero_cuenta with
  | None =>
      (false, registrar_transaccion ahora LOGIN 0 FALLIDA
                ("Cuenta inexistente: " +:+ numero_cuenta) s)
  | Some cuenta =>
      if CuentaUsuario.bloqueada cuenta then (false, s)
      else pedir_pin (seq 0 INTENTOS_PIN_MAXIMOS) pins numero_cuenta ahora s
  end.

(** [procesar_retiro(monto)]: [hoy1] is the day the clock gives to the check,
    [confirma] the answer to the confirmation, [hoy2] the day the clock
    gives to [retirar]. *)
Definition procesar_retiro (monto : Z) (hoy1 : date) (confirma : bool) (hoy2 : date)
    (ahora : datetime) (s : t) : option t :=
  n ← cuenta_actual s;
  c ← cuentas s !! n;
  let '((puede, mensaje), c1) := CuentaUsuario.puede_retirar monto hoy1 c in
  let s1 := poner_cuenta n c1 s in
  if negb puede then
    Some (registrar_transaccion ahora RETIRO monto FALLIDA mensaje s1)
  else if confirma then
    let '(hecho, c2) := CuentaUsuario.retirar monto hoy2 c1 in
    let s2 := poner_cuenta n c2 s1 in
    if hecho then Some (registrar_transaccion ahora RETIRO monto EXITOSA "" s2)
    else Some (registrar_transaccion ahora RETIRO monto FALLIDA "" s2)
  else
    Some (registrar_transaccion ahora RETIRO monto CANCELADA "" s1).

(** [procesar_deposito()]: [monto] is the answer of [solicitar_monto]. *)
Definition procesar_deposito (monto : option Z) (confirma : bool)
    (ahora : datetime) (s : t) : option t :=
  match monto with
  | None => Some s
  | Some m =>
      if m =? 0 then Some s
      else if confirma then
        n ← cuenta_actual s;
        c ← cuentas s !! n;
        let '(hecho, c1) := CuentaUsuario.depositar m c in
        let s1 := poner_cuenta n c1 s in
        if hecho then Some (registrar_transaccion ahora DEPOSITO m EXITOSA "" s1)
        else Some (registrar_transaccion ahora DEPOSITO m FALLIDA "" s1)
      else
        Some (registrar_transaccion ahora DEPOSITO m CANCELADA "" s)
  end.

Definition consultar_saldo (ahora : datetime) (s : t) : option t :=
  n ← cuenta_actual s;
  _ ← cuentas s !! n;
  Some (registrar_transaccion ahora CONSULTA 0 EXITOSA "" s).

(** [cambiar_pin()]: the three answers of [solicitar_pin]. *)
Definition cambiar_pin (pin_actual pin_nuevo pin_confirmacion : string)
    (ahora : datetime) (s : t) : option t :=
  if Texto.vacio pin_actual then Some s
  else if Texto.vacio pin_nuevo then Some s
  else if bool_decide (pin_nuevo <> pin_confirmacion) then Some s
  else
    n ← cuenta_actual s;
    c ← cuentas s !! n;
    let '(hecho, c1) := CuentaUsuario.cambiar_pin pin_actual pin_nuevo c in
    if hecho
    then Some (registrar_transaccion ahora CAMBIO_PIN 0 EXITOSA "" (poner_cuenta n c1 s))
    else Some (registrar_transaccion ahora CAMBIO_PIN 0 FALLIDA "" (poner_cuenta n c1 s)).

Definition cerrar_sesion (confirma : bool) (s : t) : t :=
  if confirma then con_sesion None false s else s.

End CajeroAutomatico.

(** ** [AdministradorATM]: the operations on the engine's accounts and log *)
Module AdministradorATM.
Import CajeroAutomatico.

Definition pin_admin : string := "0000".

Definition autenticar_admin (pin : string) : bool :=
  bool_decide (pin = pin_admin).

Definition desbloquear_cuenta (numero_cuenta : string) (confirma : bool) (s : t) : t :=
  match cuentas s !! numero_cuenta with
  | None => s
  | Some cuenta =>
      if negb (CuentaUsuario.bloqueada cuenta) then s
      else if confirma then
        poner_cuenta numero_cuenta
          (CuentaUsuario.con_intentos_fallidos 0 (CuentaUsuario.con_bloqueada false cuenta)) s
      else s
  end.

(** [crear_cuenta()]: [pin] is the answer of [solicitar_pin], and
    [saldo_inicial] the number typed, [None] for a text [float] rejects. *)
Definition crear_cuenta (numero_cuenta pin : string) (saldo_inicial : option Z)
    (ahora : datetime) (s : t) : t :=
  if negb (Texto.isdigit numero_cuenta) || negb (Texto.len numero_cuenta =? 6) then s
  else if bool_decide (is_Some (cuentas s !! numero_cuenta)) then s
  else if Texto.vacio pin then s
  else
    match saldo_inicial with
    | None => s
    | Some saldo =>
        if saldo <? 0 then s
        else poner_cuenta numero_cuenta (CuentaUsuario.nueva numero_cuenta pin saldo ahora) s
    end.

Definition limpiar_logs (confirma : bool) (s : t) : t :=
  match transacciones s with
  | [] => s
  | _ => if confirma then con_transacciones [] s else s
  end.

End AdministradorATM.

(** ** Calls of the engine, in any order *)
Module Motor.
Import CajeroAutomatico AdministradorATM.

(** A call of one of the engine's operations with what it reads from the
    user and the clock. *)
Inductive Llamada :=
| Autenticar (numero_cuenta : string) (pins : list string) (ahora : datetime)
| Retirar (monto : Z) (hoy1 : date) (confirma : bool) (hoy2 : date) (ahora : datetime)
| Depositar (monto : option Z) (confirma : bool) (ahora : datetime)
| Consultar (ahora : datetime)
| CambiarPin (pin_actual pin_nuevo pin_confirmacion : string) (ahora : datetime)
| CerrarSesion (confirma : bool)
| Desbloquear (numero_cuenta : string) (confirma : bool)
| CrearCuenta (numero_cuenta pin : string) (saldo_inicial : option Z) (ahora : datetime)
| LimpiarLogs (confirma : bool).

(** The state after the call; [None] when the call raises. *)
Definition llamar (l : Llamada) (s : t) : option t :=
  match l with
  | Autenticar n pins ahora => Some (snd (autenticar_usuario n pins ahora s))
  | Retirar m h1 c h2 ahora => procesar_retiro m h1 c h2 ahora s
  | Depositar m c ahora => procesar_deposito m c ahora s
  | Consultar ahora => consultar_saldo ahora s
  | CambiarPin a n c ahora => CajeroAutomatico.cambiar_pin a n c ahora s
  | CerrarSesion c => Some (cerrar_sesion c s)
  | Desbloquear n c => Some (desbloquear_cuenta n c s)
  | CrearCuenta n p saldo ahora => Some (crear_cuenta n p saldo ahora s)
  | LimpiarLogs c => Some (limpiar_logs c s)
  end.

Fixpoint ejecutar (ls : list Llamada) (s : t) : option t :=
  match ls with
  | [] => Some s
  | l :: r => s' ← llamar l s; ejecutar r s'
  end.

End Motor.

(** ** The program: [main] and its menus *)
Module Programa.
Import CajeroAutomatico AdministradorATM Motor.

(** The menu whose loop is waiting for the user. *)
Inductive Pantalla := MenuPrincipal | MenuUsuario | MenuAdmin.

Record Sistema := mk { pantalla : Pantalla; cajero : CajeroAutomatico.t }.

(** What [solicitar_pin] can answer: a PIN of the right format, or the empty
    string. *)
Definition respuesta_pin (pin : string) : bool :=
  Texto.vacio pin || SistemaSeguridad.validar_formato_pin pin.

(** What [solicitar_monto] can answer: an amount above zero, or [None]. *)
Definition respuesta_monto (monto : option Z) : bool :=
  match monto with Some m => 0 <? m | None => true end.

(** What the user does at a menu. *)
Inductive Entrada :=
| AccesoUsuario (numero_cuenta : string) (pins : list string) (ahora : datetime)
| AccesoAdmin (pin : string)
| SalirAdmin
| Operacion (l : Llamada).

(** One turn of a menu loop; [None] when the menu on screen does not offer
    the input, when the input is not an answer its prompt can return, or
    when the call raises. *)
Definition paso (x : Sistema) (e : Entrada) : option Sistema :=
  let s := cajero x in
  match pantalla x, e with
  | MenuPrincipal, AccesoUsuario n pins ahora =>
      if forallb respuesta_pin pins then
        let '(ok, s') := autenticar_usuario n pins ahora s in
        Some (mk (if ok then MenuUsuario else MenuPrincipal) s')
      else None
  | MenuPrincipal, AccesoAdmin pin =>
      if respuesta_pin pin
      then Some (mk (if autenticar_admin pin then MenuAdmin else MenuPrincipal) s)
      else None
  | MenuUsuario, Operacion (Retirar m h1 c h2 ahora) =>
      if 0 <? m then mk MenuUsuario <$> procesar_retiro m h1 c h2 ahora s else None
  | MenuUsuario, Operacion (Depositar m c ahora) =>
      if respuesta_monto m then mk MenuUsuario <$> procesar_deposito m c ahora s else None
  | MenuUsuario, Operacion (Consultar ahora) =>
      mk MenuUsuario <$> consultar_saldo ahora s
  | MenuUsuario, Operacion (CambiarPin a n c ahora) =>
      if respuesta_pin a && respuesta_pin n && respuesta_pin c
      then mk MenuUsuario <$> CajeroAutomatico.cambiar_pin a n c ahora s
      else None
  | MenuUsuario, Operacion (CerrarSesion c) =>
      Some (mk MenuPrincipal (cerrar_sesion c s))
  | MenuAdmin, Operacion (Desbloquear n c) =>
      Some (mk MenuAdmin (desbloquear_cuenta n c s))
  | MenuAdmin, Operacion (CrearCuenta n p saldo ahora) =>
      if respuesta_pin p
      then Some (mk MenuAdmin (crear_cuenta n p saldo ahora s))
      else None
  | MenuAdmin, Operacion (LimpiarLogs c) =>
      Some (mk MenuAdmin (limpiar_logs c s))
  | MenuAdmin, SalirAdmin => Some (mk MenuPrincipal s)
  | _, _ => None
  end.

(** The program at its first menu, over the data file [f]. *)
Definition arranque (f : GestorDatos.archivo) (ahora : datetime) : option Sistema :=
  mk MenuPrincipal <$> init f ahora.

(** The states the program goes through. *)
Inductive alcanzable : Sistema -> Prop :=
| alc_arranque f ahora x : arranque f ahora = Some x -> alcanzable x
| alc_paso x e x' : alcanzable x -> paso x e = Some x' -> alcanzable x'.

End Programa.

(** ** The withdrawal rules in the specification's words *)
Module Especificacion.

Inductive Rechazo :=
| InsufficientFunds
| PerTransactionLimitExceeded
| DailyLimitExceeded.

Definition perTransactionLimit : Z := 50000.
Definition dailyLimit : Z := 200000.

(** [canWithdraw(amount)], [None] for allowed: the rules in the order the
    specification lists them, the daily total counted as zero when the last
    withdrawal was not made today. *)
Definition canWithdraw (balance amount : Z) (lastWithdrawalDate : option date)
    (dailyWithdrawn : Z) (today : date) : option Rechazo :=
  if balance <? amount then Some InsufficientFunds
  else if amount >? perTransactionLimit then Some PerTransactionLimitExceeded
  else
    let daily := if bool_decide (lastWithdrawalDate = Some today)
                 then dailyWithdrawn else 0 in
    if daily + amount >? dailyLimit then Some DailyLimitExceeded
    else None.

(** The answer of [puede_retirar] that reports each outcome. *)
Definition respuesta (r : option Rechazo) : bool * string :=
  match r with
  | None => (true, CuentaUsuario.msg_ok)
  | Some InsufficientFunds => (false, CuentaUsuario.msg_saldo_insuficiente)
  | Some PerTransactionLimitExceeded => (false, CuentaUsuario.msg_limite_transaccion)
  | Some DailyLimitExceeded => (false, CuentaUsuario.msg_limite_diario)
  end.


End Especificacion.

(** ** Predicates on the states of the engine *)
Module Invariantes.
Import CajeroAutomatico.


(** An answer of [solicitar_pin] that is a PIN, and not the one whose digest
    is [h]. *)
Definition fallo (h : string) (pin : string) : bool :=
  negb (Texto.vacio pin) && negb (SistemaSeguridad.verificar_pin pin h).

(** An answer of [solicitar_pin] that is the PIN whose digest is [h]. *)
Definition acierto (h : string) (pin : string) : bool :=
  negb (Texto.vacio pin) && SistemaSeguridad.verificar_pin pin h.

(** How many of the first [k] answers are wrong PINs in a row. *)
Fixpoint fallos (k : nat) (h : string) (pins : list string) : nat :=
  match k with
  | O => O
  | S k' => if fallo h (hd ""%string pins) then S (fallos k' h (tl pins)) else O
  end.

(** While the user menu is on screen, the session is bound to an account of
    the dictionary that is not locked. *)
Definition sesion_en_regla (x : Programa.Sistema) : Prop :=
  Programa.pantalla x = Programa.MenuUsuario ->
  exists n c,
    cuenta_actual (Programa.cajero x) = Some n
    /\ cuentas (Programa.cajero x) !! n = Some c
    /\ CuentaUsuario.bloqueada c = false.

(** The inputs of a run of the program, one after the other. *)
Fixpoint pasos (es : list Programa.Entrada) (x : Programa.Sistema)
    : option Programa.Sistema :=
  match es with
  | [] => Some x
  | e :: r => x' ← Programa.paso x e; pasos r x'
  end.

(** The dictionary after [cuentas[c.numero_cuenta] = c] for each account of
    a list, in its order. *)
Definition indexar (cs : list CuentaUsuario.t) (cuentas : gmap string CuentaUsuario.t)
    : gmap string CuentaUsuario.t :=
  fold_left (fun m c => <[CuentaUsuario.numero_cuenta c := c]> m) cs cuentas.

(** The dates of an account are dates of the calendar. *)
Definition cuenta_valida (c : CuentaUsuario.t) : bool :=
  datetime_valido (CuentaUsuario.fecha_creacion c)
  && match CuentaUsuario.ultimo_retiro_fecha c with
     | Some d => fecha_valida d
     | None => true
     end.

(** The time of a transaction is a time of the calendar. *)
Definition transaccion_valida (x : Transaccion.t) : bool :=
  datetime_valido (Transaccion.timestamp x).

(** An account that sits under its own number and has dates of the
    calendar. *)
Definition guardable (k : string) (c : CuentaUsuario.t) : Prop :=
  CuentaUsuario.numero_cuenta c = k /\ cuenta_valida c = true.

(** What [guardar_datos] is given by the engine: a dictionary keyed by the
    accounts' own numbers, with dates and times of the calendar. *)
Definition estado_guardable (s : CajeroAutomatico.t) : Prop :=
  map_Forall guardable (cuentas s)
  /\ Forall (fun x => transaccion_valida x = true) (transacciones s).

(** The calls the user menu makes on the session's account. *)
Definition de_sesion (l : Motor.Llamada) : bool :=
  match l with
  | Motor.Retirar _ _ _ _ _ | Motor.Depositar _ _ _ | Motor.Consultar _
  | Motor.CambiarPin _ _ _ _ => true
  | _ => false
  end.

(** The clock readings of a call are dates and times of the calendar. *)
Definition llamada_valida (l : Motor.Llamada) : bool :=
  match l with
  | Motor.Autenticar _ _ ahora => datetime_valido ahora
  | Motor.Retirar _ hoy1 _ hoy2 ahora =>
      fecha_valida hoy1 && fecha_valida hoy2 && datetime_valido ahora
  | Motor.Depositar _ _ ahora => datetime_valido ahora
  | Motor.Consultar ahora => datetime_valido ahora
  | Motor.CambiarPin _ _ _ ahora => datetime_valido ahora
  | Motor.CrearCuenta _ _ _ ahora => datetime_valido ahora
  | Motor.CerrarSesion _ | Motor.Desbloquear _ _ | Motor.LimpiarLogs _ => true
  end.

End Invariantes.

(** ** The values of the specification's scenario *)
Module Escenario.

Definition dia1 : date := mkdate 2024 3 14.
Definition dia2 : date := mkdate 2024 3 15.
Definition instante (d : date) : datetime := mkdatetime d 9 30 0 0.

(** The demo account: number 123456, PIN 1234, balance 100 000. *)
Definition cuenta_demo : CuentaUsuario.t :=
  CuentaUsuario.nueva "123456" "1234" 100000 (instante dia1).

(** The demo account after a withdrawal of 50 000 on the first day. *)
Definition cuenta_dia1 : CuentaUsuario.t :=
  snd (CuentaUsuario.retirar 50000 dia1 cuenta_demo).

(** The engine made over no data file: the demo account alone. *)
Definition motor_demo : CajeroAutomatico.t :=
  CajeroAutomatico.mk {[ "123456"%string := cuenta_demo ]} [] None false.

(** A session of the scenario: login, two withdrawals, a deposit of 0. *)
Definition llamadas_escenario : list Motor.Llamada :=
  [ Motor.Autenticar "123456" ["1234"%string] (instante dia1);
    Motor.Retirar 50000 dia1 true dia1 (instante dia1);
    Motor.Retirar 50001 dia1 true dia1 (instante dia1);
    Motor.Depositar (Some 0) true (instante dia1) ].


(** Three wrong PINs. *)
Definition tres_fallos : list string := ["0000"%string; "0000"%string; "1111"%string].

(** The program at its main menu over no data file. *)
Definition sistema_demo : Programa.Sistema :=
  Programa.mk Programa.MenuPrincipal motor_demo.

(** Three wrong PINs at the login of the demo account, and the right PIN at
    a later login. *)
Definition entrada_bloqueo : Programa.Entrada :=
  Programa.AccesoUsuario "123456" tres_fallos (instante dia1).
Definition entrada_pin_correcto : Programa.Entrada :=
  Programa.AccesoUsuario "123456" ["1234"%string] (instante dia2).

(** The engine after the login and the first withdrawal of the scenario. *)
Definition motor_dia1 : CajeroAutomatico.t :=
  CajeroAutomatico.mk
    {[ "123456"%string := cuenta_dia1 ]}
    [ Transaccion.mk (instante dia1) LOGIN 0 EXITOSA "123456" "Login exitoso";
      Transaccion.mk (instante dia1) RETIRO 50000 EXITOSA "123456" "" ]
    (Some "123456"%string) true.

(** A data file whose second account record has no field. *)
Definition documento_truncado : GestorDatos.archivo :=
  GestorDatos.Documento
    (JDict [ ("cuentas"%string, JList [CuentaUsuario.to_dict cuenta_demo; JDict []]);
             ("transacciones"%string, JList []) ]).


(** Four times SUPERSCRIPT TWO. *)
Definition pin_superindices : string :=
  String "178" (String "178" (String "178" (String "178" EmptyString))).

End Escenario.

(** ** Data files written by hand *)
Module Archivos.

(** The data file that holds the records of the accounts [cs] and of the
    transactions [ts], in their order. *)
Definition documento (cs : list CuentaUsuario.t) (ts : list Transaccion.t)
    : GestorDatos.archivo :=
  GestorDatos.Documento
    (JDict [ ("cuentas"%string, JList (map CuentaUsuario.to_dict cs));
             ("transacciones"%string, JList (map Transaccion.to_dict ts)) ]).

(** The keys [CuentaUsuario.from_dict] and [Transaccion.from_dict] read. *)
Definition claves_cuenta : list string :=
  [ "numero_cuenta"; "pin_hash"; "saldo"; "bloqueada"; "intentos_fallidos";
    "ultimo_retiro_fecha"; "retiros_diarios"; "fecha_creacion" ]%string.
Definition claves_transaccion : list string :=
  [ "tipo"; "monto"; "estado"; "cuenta"; "detalle"; "timestamp" ]%string.

(** The accounts of a list that have the number [k]. *)
Definition con_numero (k : string) (cs : list CuentaUsuario.t) : list CuentaUsuario.t :=
  filter (fun c => CuentaUsuario.numero_cuenta c = k) cs.

End Archivos.

(** ** [InterfazUsuario]: the prompt for a PIN and the menus *)
Module InterfazUsuario.

(** One turn of [getpass.getpass]: the text typed, or the interruption of
    the user ([KeyboardInterrupt]). *)
Inductive Tecleo :=
| Escribe (texto : string)
| Interrumpe.


(** The characters [str.strip] removes, among the code points below 256:
    those [str.isspace] holds of. *)
Definition espacio (c : ascii) : bool :=
  let n := Texto.ord c in
  ((9 <=? n) && (n <=? 13)) || ((28 <=? n) && (n <=? 32)) || (n =? 133) || (n =? 160).

Fixpoint lstrip (cs : list ascii) : list ascii :=
  match cs with
  | c :: r => if espacio c then lstrip r else cs
  | [] => []
  end.

(** [s.strip()] *)
Definition strip (s : string) : string :=
  string_of_list_ascii (rev (lstrip (rev (lstrip (list_ascii_of_string s))))).

(** [str(n)] of a count. *)
Definition str (n : nat) : string := NilZero.string_of_uint (Nat.to_uint n).

(** The number a text of decimal digits writes. *)
Definition valor (s : string) : Z :=
  fold_left (fun a c => 10 * a + (Texto.ord c - 48)) (list_ascii_of_string s) 0.

(** [int(s)] on a text [s.isdigit()] holds of: [ValueError] when one of its
    digits is not a decimal digit.  Other texts are outside the model, and so
    are the texts of more than 640 digits: whether [int] reads those depends
    on the limit on digits the interpreter runs with. *)
Definition int (s : string) : resultado Z :=
  if negb (Texto.isdigit s) then SinModelo
  else if negb (Texto.todos_decimales s) then Lanza ValueError
  else if 640 <? Texto.len s then SinModelo
  else Ok (valor s).

(** [mostrar_menu(titulo, opciones)] over the turns of its [while True], for
    a list of [opciones] options: the option it returns, [None] while every
    turn so far was refused and the menu is still asking. *)
Fixpoint mostrar_menu (opciones : nat) (turnos : list Tecleo) : resultado (option string) :=
  match turnos with
  | [] => Ok None
  | Interrumpe :: _ => Ok (Some (str opciones))
  | Escribe texto :: r =>
      let opcion := strip texto in
      if Texto.isdigit opcion then
        n ← int opcion;
        if (1 <=? n) && (n <=? Z.of_nat opciones) then Ok (Some opcion)
        else mostrar_menu opciones r
      else mostrar_menu opciones r
  end.



End InterfazUsuario.

(** ** The figures of [AdministradorATM.ver_estadisticas] and the listing of
    [ver_logs_transacciones] *)
Module Estadisticas.
Import CajeroAutomatico.



(** [sum(c.saldo for c in self.cajero.cuentas.values())] *)
Definition total_saldo (s : CajeroAutomatico.t) : Z :=
  fold_left Z.add (CuentaUsuario.saldo <$> GestorDatos.values (cuentas s)) 0.

(** [[t for t in self.cajero.transacciones if t.timestamp.date() == hoy]] *)
Definition transacciones_hoy (hoy : date) (s : CajeroAutomatico.t) : list Transaccion.t :=
  filter (fun x => to_date (Transaccion.timestamp x) = hoy) (transacciones s).

(** [tipos_count] once the loop over [transacciones_hoy] is through:
    [tipos_count[trans.tipo.value] = tipos_count.get(trans.tipo.value, 0) + 1]. *)
Definition tipos_count (hoy : date) (s : CajeroAutomatico.t) : gmap string nat :=
  fold_left
    (fun m trans =>
       <[TipoTransaccion_value (Transaccion.tipo trans)
         := (default 0%nat (m !! TipoTransaccion_value (Transaccion.tipo trans)) + 1)%nat]> m)
    (transacciones_hoy hoy s) ∅.

(** The lines [ver_logs_transacciones] prints, in their order:
    [reversed(self.cajero.transacciones[-50:])]. *)
Definition ver_logs_transacciones (s : CajeroAutomatico.t) : list Transaccion.t :=
  rev (GestorDatos.ultimas 50 (transacciones s)).

End Estadisticas.

(** ** The log read as the account of the money moved *)
Module Auditoria.




(** The second account has the number, the lock, the failed attempts and the
    creation time of the first. *)
Definition mismos_datos (c c' : CuentaUsuario.t) : Prop :=
  CuentaUsuario.numero_cuenta c' = CuentaUsuario.numero_cuenta c
  /\ CuentaUsuario.bloqueada c' = CuentaUsuario.bloqueada c
  /\ CuentaUsuario.intentos_fallidos c' = CuentaUsuario.intentos_fallidos c
  /\ CuentaUsuario.fecha_creacion c' = CuentaUsuario.fecha_creacion c.


(** What a call of the user menu leaves: the dictionary with the session's
    account replaced, and at most one record more, under the account's number. *)
Definition marco (s s' : CajeroAutomatico.t) (n : string) (c : CuentaUsuario.t) : Prop :=
  exists c' nuevos,
    CajeroAutomatico.cuentas s' = <[n := c']> (CajeroAutomatico.cuentas s)
    /\ mismos_datos c c'
    /\ CajeroAutomatico.transacciones s' = CajeroAutomatico.transacciones s ++ nuevos
    /\ (length nuevos <= 1)%nat
    /\ Forall (fun x => Transaccion.cuenta x = CuentaUsuario.numero_cuenta c) nuevos
    /\ CajeroAutomatico.cuenta_actual s' = Some n
    /\ CajeroAutomatico.sesion_activa s' = CajeroAutomatico.sesion_activa s.

(** The second account is the first but for the lock and the failed
    attempts. *)
Definition salvo_intentos (c c' : CuentaUsuario.t) : Prop :=
  c' = CuentaUsuario.con_bloqueada (CuentaUsuario.bloqueada c')
         (CuentaUsuario.con_intentos_fallidos (CuentaUsuario.intentos_fallidos c') c).


End Auditoria.

(** * Properties *)

(** ** Test vectors of the digest *)

Example constantes_sha256 :
  length SHA256.primos = 64%nat
  /\ nth 0 SHA256.H0 0 = 0x6a09e667 /\ nth 7 SHA256.H0 0 = 0x5be0cd19
  /\ nth 0 SHA256.K 0 = 0x428a2f98 /\ nth 63 SHA256.K 0 = 0xc67178f2.
Proof. vm_compute. repeat split; reflexivity. Qed.

Example sha_vacio :
  SHA256.hexdigest [] = "e3b0c44298fc1c149afbf4c8996fb92427ae41e4649b934ca495991b7852b855"%string.
Proof. vm_compute. reflexivity. Qed.

Example hash_1234 :
  SistemaSeguridad.hash_pin "1234" = "03ac674216f3e15c761ee1a5e255f067953623c8b388b4459e13f978d7c846f4"%string.
Proof. vm_compute. reflexivity. Qed.

(** ** The ISO text of dates reads back *)
Module FechasProps.

Lemma valor_car_digito d : 0 <= d < 10 -> valor_digito (car_digito d) = Some d.
Proof.
  intros H.
  assert (d = 0 \/ d = 1 \/ d = 2 \/ d = 3 \/ d = 4 \/ d = 5 \/ d = 6
          \/ d = 7 \/ d = 8 \/ d = 9) as Hd by lia.
  repeat (destruct Hd as [-> | Hd]; [reflexivity |]).
  subst d. reflexivity.
Qed.

Lemma leer_digitos_digitos n : forall acc v r,
  0 <= v < 10 ^ Z.of_nat n ->
  leer_digitos n acc (digitos n v ++ r) = Some (acc * 10 ^ Z.of_nat n + v, r).
Proof.
  induction n as [| k IH]; intros acc v r Hv.
  - simpl in *. f_equal. f_equal. lia.
  - rewrite Nat2Z.inj_succ, Z.pow_succ_r in Hv by lia.
    rewrite Nat2Z.inj_succ, Z.pow_succ_r by lia.
    assert (0 < 10 ^ Z.of_nat k) as Hp by (apply Z.pow_pos_nonneg; lia).
    pose proof (Z.div_mod v (10 ^ Z.of_nat k) ltac:(lia)) as Hdm.
    pose proof (Z.mod_pos_bound v (10 ^ Z.of_nat k) Hp) as Hm.
    assert (0 <= v / 10 ^ Z.of_nat k < 10) as Hq.
    { split; [apply Z.div_pos; lia | apply Z.div_lt_upper_bound; lia]. }
    cbn [digitos leer_digitos app].
    rewrite (valor_car_digito _ Hq). cbn [mbind option_bind].
    rewrite (IH _ _ _ Hm). f_equal. f_equal. nia.
Qed.

(** One step of reading back: digits, a separator, or the next bind. *)
Ltac releer :=
  repeat first
    [ rewrite leer_digitos_digitos by (simpl; lia)
    | rewrite decide_True by reflexivity
    | progress cbn [mbind option_bind leer_car] ].

Lemma leer_fecha_chars d r :
  fecha_valida d = true -> leer_fecha (fecha_chars d r) = Some (d, r).
Proof.
  intros Hv. pose proof Hv as Hv'. unfold fecha_valida in Hv'.
  assert (dias_del_mes (year d) (month d) <= 31) as Hmes.
  { unfold dias_del_mes. repeat case_match; lia. }
  unfold leer_fecha, fecha_chars. releer.
  replace (mkdate _ _ _) with d by (destruct d; simpl; f_equal; lia).
  rewrite Hv. reflexivity.
Qed.

(** [datetime.fromisoformat] inverts [datetime.isoformat]. *)
Lemma fromisoformat_isoformat t :
  datetime_valido t = true -> fromisoformat (isoformat t) = Some t.
Proof.
  intros Hv. pose proof Hv as Hv'. unfold datetime_valido in Hv'.
  unfold fromisoformat, isoformat.
  rewrite list_ascii_of_string_of_list_ascii.
  pose proof Hv' as Hf. do 8 (apply andb_prop in Hf as [Hf _]).
  rewrite leer_fecha_chars by exact Hf.
  cbn [mbind option_bind]. unfold hora_chars, leer_hora. releer.
  destruct (microsecond t =? 0) eqn:Hus.
  - releer.
    replace (mkdatetime _ _ _ _ _) with t by (destruct t; simpl in *; f_equal; lia).
    rewrite Hv. reflexivity.
  - rewrite <- (app_nil_r (digitos 6 _)). releer.
    replace (mkdatetime _ _ _ _ _) with t by (destruct t; simpl in *; f_equal; lia).
    rewrite Hv. reflexivity.
Qed.

(** [datetime.fromisoformat(d.isoformat()).date()] is [d]. *)
Lemma fromisoformat_date_isoformat d :
  fecha_valida d = true ->
  to_date <$> fromisoformat (date_isoformat d) = Some d.
Proof.
  intros Hv. unfold fromisoformat, date_isoformat.
  rewrite list_ascii_of_string_of_list_ascii, leer_fecha_chars by assumption.
  reflexivity.
Qed.

Lemma date_isoformat_no_vacio d : Texto.vacio (date_isoformat d) = false.
Proof. reflexivity. Qed.

End FechasProps.

(** ** The account's rules *)
Module CuentaProps.
Import CuentaUsuario Especificacion Escenario.

Lemma mensaje_limite_transaccion :
  String.length msg_limite_transaccion = 45%nat /\ String.length msg_limite_diario = 42%nat.
Proof. split; reflexivity. Qed.

Example escenario_primer_retiro :
  retirar 50000 dia1 cuenta_demo
  = (true, mk "123456" (SistemaSeguridad.hash_pin "1234") 50000 false 0
              (Some dia1) 50000 (instante dia1)).
Proof. vm_compute. reflexivity. Qed.

Example escenario_segundo_retiro :
  puede_retirar 50001 dia1 cuenta_dia1 = ((false, msg_saldo_insuficiente), cuenta_dia1)
  /\ retirar 50001 dia1 cuenta_dia1 = (false, cuenta_dia1)
  /\ depositar 0 cuenta_dia1 = (false, cuenta_dia1).
Proof. vm_compute. repeat split; reflexivity. Qed.

(** The answer of [puede_retirar] is decided by the balance, and then by the
    amount, and then by the total of the day. *)
Lemma puede_retirar_respuesta monto hoy c :
  fst (puede_retirar monto hoy c)
  = respuesta (canWithdraw (saldo c) monto (ultimo_retiro_fecha c) (retiros_diarios c) hoy).
Proof.
  unfold puede_retirar, canWithdraw, perTransactionLimit, dailyLimit,
    LIMITE_RETIRO_TRANSACCION, LIMITE_RETIRO_DIARIO.
  destruct (saldo c <? monto); [reflexivity |].
  destruct (monto >? 50000); [reflexivity |].
  destruct (decide (ultimo_retiro_fecha c = Some hoy)) as [Heq | Hne].
  - rewrite bool_decide_eq_false_2 by (intros H; apply H; exact Heq).
    rewrite bool_decide_eq_true_2 by exact Heq.
    destruct (retiros_diarios c + monto >? 200000); reflexivity.
  - rewrite bool_decide_eq_true_2 by exact Hne.
    rewrite bool_decide_eq_false_2 by exact Hne.
    cbn [retiros_diarios con_ultimo_retiro_fecha con_retiros_diarios].
    destruct (0 + monto >? 200000); reflexivity.
Qed.

(** The account [puede_retirar] leaves: the day and its total are restarted
    when the balance and the amount pass and the last withdrawal was not
    made today; nothing else changes. *)
Lemma puede_retirar_cuenta monto hoy c :
  snd (puede_retirar monto hoy c)
  = if (saldo c <? monto) || (monto >? LIMITE_RETIRO_TRANSACCION)
       || bool_decide (ultimo_retiro_fecha c = Some hoy)
    then c
    else con_ultimo_retiro_fecha (Some hoy) (con_retiros_diarios 0 c).
Proof.
  unfold puede_retirar.
  destruct (saldo c <? monto); [reflexivity |].
  destruct (monto >? LIMITE_RETIRO_TRANSACCION); [reflexivity |].
  destruct (decide (ultimo_retiro_fecha c = Some hoy)) as [Heq | Hne].
  - rewrite bool_decide_eq_false_2 by (intros H; apply H; exact Heq).
    rewrite bool_decide_eq_true_2 by exact Heq.
    cbn [orb]. destruct (_ >? _); reflexivity.
  - rewrite bool_decide_eq_true_2 by exact Hne.
    rewrite bool_decide_eq_false_2 by exact Hne.
    cbn [orb]. destruct (_ >? _); reflexivity.
Qed.


(** [retirar] in terms of the answer and the account of [puede_retirar]. *)
Lemma retirar_desde_puede monto hoy c :
  retirar monto hoy c
  = let c1 := snd (puede_retirar monto hoy c) in
    if fst (fst (puede_retirar monto hoy c))
    then (true, con_retiros_diarios (retiros_diarios c1 + monto)
                  (con_saldo (saldo c1 - monto) c1))
    else (false, c1).
Proof.
  unfold retirar. destruct (puede_retirar monto hoy c) as [[puede msg] c1].
  reflexivity.
Qed.

(** [retirar] refuses an amount above the limit of one withdrawal. *)
Lemma retirar_sobre_el_limite monto hoy c :
  LIMITE_RETIRO_TRANSACCION < monto -> retirar monto hoy c = (false, c).
Proof.
  intros H. unfold retirar, puede_retirar.
  destruct (saldo c <? monto); [reflexivity |].
  rewrite Z.gtb_ltb. replace (LIMITE_RETIRO_TRANSACCION <? monto) with true by lia.
  reflexivity.
Qed.

(** C5.  [puede_retirar] applies the rules in the specification's order and
    reports the first that fails: its answer is the answer of [canWithdraw],
    in which the balance is looked at first, the limit of one withdrawal
    second, the limit of the day (on the total in force today) last; the
    three refusals and the approval carry four different messages.  So
    [retirar] never succeeds on an amount above the limit of one withdrawal,
    whatever the balance. *)
Theorem puede_retirar_sigue_el_orden :
  (forall monto hoy c,
     fst (puede_retirar monto hoy c)
     = respuesta (canWithdraw (saldo c) monto (ultimo_retiro_fecha c)
                    (retiros_diarios c) hoy))
  /\ perTransactionLimit = LIMITE_RETIRO_TRANSACCION
  /\ dailyLimit = LIMITE_RETIRO_DIARIO
  /\ NoDup [msg_saldo_insuficiente; msg_limite_transaccion; msg_limite_diario; msg_ok]
  /\ (forall monto hoy c,
        LIMITE_RETIRO_TRANSACCION < monto -> retirar monto hoy c = (false, c)).
Proof.
  split; [exact puede_retirar_respuesta |].
  split; [reflexivity |]. split; [reflexivity |].
  split; [| exact retirar_sobre_el_limite].
  apply (bool_decide_unpack _). vm_compute. exact I.
Qed.

Lemma puede_retirar_sigue_el_orden_testigo :
  LIMITE_RETIRO_TRANSACCION < 50001
  /\ saldo cuenta_demo = 100000
  /\ fst (puede_retirar 50001 dia1 cuenta_demo) = (false, msg_limite_transaccion)
  /\ retirar 50001 dia1 cuenta_demo = (false, cuenta_demo).
Proof.
  split; [reflexivity |]. split; [reflexivity |]. split.
  - rewrite (proj1 puede_retirar_sigue_el_orden 50001 dia1 cuenta_demo). reflexivity.
  - apply (proj2 (proj2 (proj2 (proj2 puede_retirar_sigue_el_orden)))). reflexivity.
Defined.



(** Characters and length of a string. *)
Lemma length_list_ascii s : length (list_ascii_of_string s) = String.length s.
Proof. induction s as [| a s IH]; simpl; congruence. Qed.

(** [validar_formato_pin]: four characters, each a digit for [str.isdigit]. *)
Lemma validar_formato_pin_sii pin :
  SistemaSeguridad.validar_formato_pin pin = true
  <-> String.length pin = 4%nat
      /\ Forall (fun ch => Texto.isdigit_char ch = true) (list_ascii_of_string pin).
Proof.
  unfold SistemaSeguridad.validar_formato_pin, Texto.isdigit, Texto.len.
  rewrite andb_true_iff, Z.eqb_eq, <- length_list_ascii.
  destruct (list_ascii_of_string pin) as [| a l] eqn:E.
  - simpl. split; [intros [? _]; discriminate | intros [? _]; discriminate].
  - rewrite forallb_forall, Forall_forall. split.
    + intros [H1 H2]. split; [lia |].
      intros x Hx. apply H1, list_elem_of_In, Hx.
    + intros [H1 H2]. split; [| lia].
      intros x Hx. apply H2, list_elem_of_In, Hx.
Qed.

Example hash_superindices :
  SistemaSeguridad.hash_pin pin_superindices
  = "2b5dde4d1553c82a48145044cba8727c2c169ab702b47e21b662f960b44f35c7"%string.
Proof. vm_compute. reflexivity. Qed.






End CuentaProps.

(** ** The engine: balances *)
Module MotorProps.
Import CuentaUsuario CajeroAutomatico AdministradorATM Motor Invariantes Escenario.














(** The engine made over no data file holds the demo account alone. *)
Lemma init_sin_archivo ahora :
  init GestorDatos.NoExiste ahora
  = Some (CajeroAutomatico.mk
            {[ "123456"%string := CuentaUsuario.nueva "123456" "1234" 100000 ahora ]}
            [] None false).
Proof. reflexivity. Qed.



End MotorProps.

(** ** The engine: authentication and lockout *)
Module AutenticacionProps.
Import CuentaUsuario CajeroAutomatico AdministradorATM Motor Invariantes Escenario.

Lemma nth_hd (pins : list string) : nth 0 pins ""%string = hd ""%string pins.
Proof. destruct pins; reflexivity. Qed.

Lemma nth_tl (pins : list string) f :
  nth (S f) pins ""%string = nth f (tl pins) ""%string.
Proof. destruct pins; [destruct f |]; reflexivity. Qed.

(** The loop of [autenticar_usuario] over the attempts [i], ..., on an
    account that is not locked: it changes that account alone; it locks it
    exactly when every answer left to ask is a wrong PIN; it returns [True]
    exactly when the answer after the wrong ones is the PIN; it counts one
    failed attempt for each wrong PIN, and sets the count to 0 on success. *)
Lemma pedir_pin_efecto n ahora k : forall i pins s c,
  (i + k)%nat = INTENTOS_PIN_MAXIMOS ->
  cuentas s !! n = Some c ->
  bloqueada c = false ->
  exists c',
    cuentas (snd (pedir_pin (seq i k) pins n ahora s)) = <[n := c']> (cuentas s)
    /\ bloqueada c' = bool_decide (fallos k (pin_hash c) pins = k /\ k <> O)
    /\ fst (pedir_pin (seq i k) pins n ahora s)
       = (fallos k (pin_hash c) pins <? k)%nat
         && acierto (pin_hash c) (nth (fallos k (pin_hash c) pins) pins ""%string)
    /\ intentos_fallidos c'
       = (if fst (pedir_pin (seq i k) pins n ahora s) then 0
          else intentos_fallidos c + Z.of_nat (fallos k (pin_hash c) pins))
    /\ pin_hash c' = pin_hash c
    /\ saldo c' = saldo c
    /\ (fst (pedir_pin (seq i k) pins n ahora s) = true ->
        cuenta_actual (snd (pedir_pin (seq i k) pins n ahora s)) = Some n).
Proof.
  induction k as [| k IH]; intros i pins s c Hik Hc Hb.
  - exists c. cbn. rewrite insert_id by exact Hc.
    rewrite Hb. repeat split; try reflexivity; try lia; discriminate.
  - cbn [seq pedir_pin fallos]. unfold fallo, acierto.
    rewrite <- (nth_hd pins).
    destruct (Texto.vacio (nth 0 pins ""%string)) eqn:Hv; cbn [negb andb].
    + exists c. cbn [fst snd]. rewrite insert_id by exact Hc.
      rewrite Hv, Hb. cbn. repeat split; try reflexivity; try lia; discriminate.
    + rewrite Hc. unfold verificar_pin.
      destruct (SistemaSeguridad.verificar_pin (nth 0 pins ""%string) (pin_hash c)) eqn:Hp;
        cbn [negb].
      * exists (con_intentos_fallidos 0 c). cbn [fst snd].
        rewrite Hv, Hp. cbn. rewrite Hb.
        repeat split; try reflexivity; try lia; discriminate.
      * set (c1 := con_intentos_fallidos (intentos_fallidos c + 1) c).
        destruct k as [| k'].
        -- assert (i = 2%nat) as -> by (unfold INTENTOS_PIN_MAXIMOS in Hik; lia).
           exists (con_bloqueada true c1). cbn.
           repeat split; try reflexivity; try lia; discriminate.
        -- assert ((Z.of_nat INTENTOS_PIN_MAXIMOS - Z.of_nat i - 1 >? 0) = true) as ->
             by (apply Z.gtb_lt; unfold INTENTOS_PIN_MAXIMOS in *; lia).
           destruct (IH (S i) (tl pins) (poner_cuenta n c1 s) c1)
             as (c' & E1 & E2 & E3 & E4 & E5 & E6 & E7).
           { lia. } { apply lookup_insert_eq. } { exact Hb. }
           exists c'. cbn [pin_hash c1 con_intentos_fallidos] in *.
           rewrite nth_tl.
           split; [rewrite E1; apply insert_insert_eq |].
           split; [rewrite E2; apply bool_decide_ext; lia |].
           split; [rewrite E3; reflexivity |].
           split; [rewrite E4; destruct (fst _); cbn; lia |].
           split; [exact E5 |]. split; [exact E6 | exact E7].
Qed.

(** [autenticar_usuario] on an account that is not locked. *)
Lemma autenticar_efecto n pins ahora s c :
  cuentas s !! n = Some c ->
  bloqueada c = false ->
  exists c',
    cuentas (snd (autenticar_usuario n pins ahora s)) = <[n := c']> (cuentas s)
    /\ bloqueada c'
       = bool_decide (fallos INTENTOS_PIN_MAXIMOS (pin_hash c) pins = INTENTOS_PIN_MAXIMOS)
    /\ fst (autenticar_usuario n pins ahora s)
       = (fallos INTENTOS_PIN_MAXIMOS (pin_hash c) pins <? INTENTOS_PIN_MAXIMOS)%nat
         && acierto (pin_hash c)
              (nth (fallos INTENTOS_PIN_MAXIMOS (pin_hash c) pins) pins ""%string)
    /\ intentos_fallidos c'
       = (if fst (autenticar_usuario n pins ahora s) then 0
          else intentos_fallidos c
               + Z.of_nat (fallos INTENTOS_PIN_MAXIMOS (pin_hash c) pins))
    /\ pin_hash c' = pin_hash c
    /\ saldo c' = saldo c
    /\ (fst (autenticar_usuario n pins ahora s) = true ->
        cuenta_actual (snd (autenticar_usuario n pins ahora s)) = Some n).
Proof.
  intros Hc Hb. unfold autenticar_usuario. rewrite Hc, Hb.
  destruct (pedir_pin_efecto n ahora INTENTOS_PIN_MAXIMOS 0 pins s c eq_refl Hc Hb)
    as (c' & E1 & E2 & E3 & E4 & E5 & E6 & E7).
  exists c'. split; [exact E1 |].
  split; [rewrite E2; apply bool_decide_ext; unfold INTENTOS_PIN_MAXIMOS; intuition lia |].
  split; [exact E3 |]. split; [exact E4 |].
  split; [exact E5 |]. split; [exact E6 | exact E7].
Qed.

(** [autenticar_usuario] on a locked or unknown account changes no account. *)
Lemma autenticar_rechaza n pins ahora s :
  (forall c, cuentas s !! n = Some c -> bloqueada c = true) ->
  fst (autenticar_usuario n pins ahora s) = false
  /\ cuentas (snd (autenticar_usuario n pins ahora s)) = cuentas s
  /\ cuenta_actual (snd (autenticar_usuario n pins ahora s)) = cuenta_actual s.
Proof.
  intros H. unfold autenticar_usuario.
  destruct (cuentas s !! n) as [c |] eqn:Hc.
  - rewrite (H c eq_refl). repeat split.
  - repeat split.
Qed.




End AutenticacionProps.

(** ** The program: locked accounts, cancelled withdrawals *)
Module ProgramaProps.
Import CuentaUsuario CajeroAutomatico AdministradorATM Motor Programa Invariantes Escenario.

Lemma puede_retirar_bloqueada monto hoy c :
  bloqueada (snd (puede_retirar monto hoy c)) = bloqueada c.
Proof. rewrite CuentaProps.puede_retirar_cuenta. destruct (_ || _ || _); reflexivity. Qed.

Lemma retirar_bloqueada monto hoy c :
  bloqueada (snd (retirar monto hoy c)) = bloqueada c.
Proof.
  rewrite CuentaProps.retirar_desde_puede. cbv zeta.
  destruct (fst (fst _)); cbn; apply puede_retirar_bloqueada.
Qed.

(** [retirar] does not look at the lock of the account: the guard of the
    lock is the authentication, which binds no locked account. *)
Lemma retirar_ignora_bloqueo monto hoy c b :
  retirar monto hoy (con_bloqueada b c)
  = (fst (retirar monto hoy c), con_bloqueada b (snd (retirar monto hoy c))).
Proof.
  unfold retirar, puede_retirar. cbn [saldo con_bloqueada ultimo_retiro_fecha].
  destruct (saldo c <? monto); [reflexivity |].
  destruct (monto >? _); [reflexivity |].
  destruct (bool_decide _); cbn; destruct (_ >? _); reflexivity.
Qed.

(** A call on the session's account leaves the session as it is, and either
    changes no account or changes the one of the session, not its lock. *)
Lemma llamada_de_sesion l s s' :
  de_sesion l = true ->
  llamar l s = Some s' ->
  cuenta_actual s' = cuenta_actual s
  /\ (cuentas s' = cuentas s
      \/ exists k c c',
           cuenta_actual s = Some k /\ cuentas s !! k = Some c
           /\ cuentas s' = <[k := c']> (cuentas s)
           /\ bloqueada c' = bloqueada c).
Proof.
  destruct l as [ | monto hoy1 confirma hoy2 ahora | monto confirma ahora | ahora
                | pa pn pc ahora | | | | ]; try discriminate; intros _; cbn [llamar].
  - unfold procesar_retiro.
    destruct (cuenta_actual s) as [k |] eqn:Hk; [| discriminate]. cbn [mbind option_bind].
    destruct (cuentas s !! k) as [c |] eqn:Hc; [| discriminate]. cbn [mbind option_bind].
    pose proof (puede_retirar_bloqueada monto hoy1 c) as H1.
    destruct (puede_retirar monto hoy1 c) as [[puede msg] c1]. cbn [snd] in H1.
    pose proof (retirar_bloqueada monto hoy2 c1) as H2.
    destruct puede; cbn [negb].
    + destruct confirma.
      * destruct (retirar monto hoy2 c1) as [hecho c2]. cbn [snd] in H2.
        destruct hecho; intros [= <-]; (split; [exact Hk |]); right;
          exists k, c, c2; cbn; rewrite insert_insert_eq;
          (repeat split; congruence).
      * intros [= <-]. split; [exact Hk |]. right. exists k, c, c1. repeat split; assumption.
    + intros [= <-]. split; [exact Hk |]. right. exists k, c, c1. repeat split; assumption.
  - unfold procesar_deposito. destruct monto as [m |]; [| intros [= <-]; (split; [reflexivity | left; reflexivity])].
    destruct (m =? 0); [intros [= <-]; (split; [reflexivity | left; reflexivity]) |].
    destruct confirma; [| intros [= <-]; (split; [reflexivity | left; reflexivity])].
    destruct (cuenta_actual s) as [k |] eqn:Hk; [| discriminate]. cbn [mbind option_bind].
    destruct (cuentas s !! k) as [c |] eqn:Hc; [| discriminate]. cbn [mbind option_bind].
    unfold depositar.
    destruct (m >? 0); intros [= <-]; (split; [exact Hk |]); right;
      eexists k, c, _; repeat split; try eassumption; reflexivity.
  - unfold consultar_saldo.
    destruct (cuenta_actual s) as [k |] eqn:Hk; [| discriminate]. cbn [mbind option_bind].
    destruct (cuentas s !! k); [| discriminate]. intros [= <-].
    split; [exact Hk | left; reflexivity].
  - unfold CajeroAutomatico.cambiar_pin.
    destruct (Texto.vacio pa); [intros [= <-]; (split; [reflexivity | left; reflexivity]) |].
    destruct (Texto.vacio pn); [intros [= <-]; (split; [reflexivity | left; reflexivity]) |].
    destruct (bool_decide _); [intros [= <-]; (split; [reflexivity | left; reflexivity]) |].
    destruct (cuenta_actual s) as [k |] eqn:Hk; [| discriminate]. cbn [mbind option_bind].
    destruct (cuentas s !! k) as [c |] eqn:Hc; [| discriminate]. cbn [mbind option_bind].
    unfold CuentaUsuario.cambiar_pin.
    destruct (_ && _); intros [= <-]; (split; [exact Hk |]); right;
      eexists k, c, _; repeat split; try eassumption; reflexivity.
Qed.

(** What a turn of the user menu is. *)
Lemma paso_menu_usuario s e x' :
  paso (Programa.mk MenuUsuario s) e = Some x' ->
  (exists c, e = Operacion (CerrarSesion c)
             /\ x' = Programa.mk MenuPrincipal (cerrar_sesion c s))
  \/ (exists l s', e = Operacion l /\ de_sesion l = true
                   /\ llamar l s = Some s' /\ x' = Programa.mk MenuUsuario s').
Proof.
  unfold paso. cbn [pantalla cajero].
  destruct e as [ | | | l]; try discriminate.
  destruct l as [ | monto hoy1 confirma hoy2 ahora | monto confirma ahora | ahora
                | pa pn pc ahora | c | | | ]; try discriminate.
  - destruct (0 <? monto); [| discriminate].
    destruct (procesar_retiro _ _ _ _ _ s) as [s' |] eqn:E; [| discriminate].
    intros [= <-]. right. eexists _, s'. repeat split. exact E.
  - destruct (respuesta_monto monto); [| discriminate].
    destruct (procesar_deposito _ _ _ s) as [s' |] eqn:E; [| discriminate].
    intros [= <-]. right. eexists _, s'. repeat split. exact E.
  - destruct (consultar_saldo _ s) as [s' |] eqn:E; [| discriminate].
    intros [= <-]. right. eexists _, s'. repeat split. exact E.
  - destruct (_ && _); [| discriminate].
    destruct (CajeroAutomatico.cambiar_pin _ _ _ _ s) as [s' |] eqn:E; [| discriminate].
    intros [= <-]. right. eexists _, s'. repeat split. exact E.
  - intros [= <-]. left. exists c. split; reflexivity.
Qed.

(** What a turn of the administrator's menu is. *)
Lemma paso_menu_admin s e x' :
  paso (Programa.mk MenuAdmin s) e = Some x' ->
  pantalla x' <> MenuUsuario
  /\ ((e = SalirAdmin /\ cajero x' = s)
      \/ (exists n c, e = Operacion (Desbloquear n c)
                      /\ cajero x' = desbloquear_cuenta n c s)
      \/ (exists n p v ahora, e = Operacion (CrearCuenta n p v ahora)
                              /\ cajero x' = crear_cuenta n p v ahora s)
      \/ (exists c, e = Operacion (LimpiarLogs c) /\ cajero x' = limpiar_logs c s)).
Proof.
  unfold paso. cbn [pantalla cajero].
  destruct e as [ | | | l]; try discriminate.
  - intros [= <-]. split; [discriminate | left; split; reflexivity].
  - destruct l as [ | | | | | | n c | n p v ahora | c ]; try discriminate.
    + intros [= <-]. split; [discriminate |]. right. left. exists n, c. split; reflexivity.
    + destruct (respuesta_pin p); [| discriminate].
      intros [= <-]. split; [discriminate |]. right. right. left.
      exists n, p, v, ahora. split; reflexivity.
    + intros [= <-]. split; [discriminate |]. right. right. right.
      exists c. split; reflexivity.
Qed.

(** What a turn of the main menu is. *)
Lemma paso_menu_principal s e x' :
  paso (Programa.mk MenuPrincipal s) e = Some x' ->
  (exists n pins ahora,
     e = AccesoUsuario n pins ahora
     /\ x' = Programa.mk (if fst (autenticar_usuario n pins ahora s)
                          then MenuUsuario else MenuPrincipal)
                         (snd (autenticar_usuario n pins ahora s)))
  \/ (exists pin, e = AccesoAdmin pin /\ pantalla x' <> MenuUsuario /\ cajero x' = s).
Proof.
  unfold paso. cbn [pantalla cajero].
  destruct e as [n pins ahora | pin | | l]; try discriminate.
  - destruct (forallb _ _); [| discriminate].
    destruct (autenticar_usuario n pins ahora s) as [ok s'] eqn:E.
    intros [= <-]. left. exists n, pins, ahora. rewrite E. split; reflexivity.
  - destruct (respuesta_pin pin); [| discriminate].
    intros [= <-]. right. exists pin.
    split; [reflexivity |]. split; [| reflexivity]. cbn. destruct (autenticar_admin pin); discriminate.
Qed.

(** A turn of a menu keeps the session in order. *)
Lemma paso_sesion_en_regla x e x' :
  sesion_en_regla x -> paso x e = Some x' -> sesion_en_regla x'.
Proof.
  destruct x as [p s]. intros Hx Hp. destruct p.
  - apply paso_menu_principal in Hp
      as [(n & pins & ahora & -> & ->) | (pin & -> & Hm & _)]; [| intros H; contradiction].
    intros Hm. cbn [pantalla cajero] in *.
    destruct (fst (autenticar_usuario n pins ahora s)) eqn:Hok; [| discriminate].
    destruct (cuentas s !! n) as [c |] eqn:Hc.
    + destruct (bloqueada c) eqn:Hb.
      * destruct (AutenticacionProps.autenticar_rechaza n pins ahora s) as [H _];
          [intros c0 Hc0; congruence | congruence].
      * destruct (AutenticacionProps.autenticar_efecto n pins ahora s c Hc Hb)
          as (c' & E1 & E2 & E3 & _ & _ & _ & E7).
        exists n, c'. split; [apply E7, Hok |].
        split; [rewrite E1; apply lookup_insert_eq |].
        rewrite E2. apply bool_decide_eq_false_2. intros Hf.
        rewrite Hf, Nat.ltb_irrefl in E3. cbn in E3. congruence.
    + destruct (AutenticacionProps.autenticar_rechaza n pins ahora s) as [H _];
        [intros c0 Hc0; congruence | congruence].
  - apply paso_menu_usuario in Hp
      as [(c & -> & ->) | (l & s' & -> & Hl & Hs' & ->)]; [intros H; discriminate |].
    intros _. destruct (Hx eq_refl) as (n & c & Hn & Hc & Hb). cbn [cajero] in *.
    destruct (llamada_de_sesion l s s' Hl Hs') as [Ha [Hsame | (k & c0 & c' & Hk & Hc0 & E & Hb')]].
    + exists n, c. rewrite Ha, Hsame. auto.
    + assert (k = n) as -> by congruence. assert (c0 = c) as -> by congruence.
      exists n, c'. rewrite Ha, E. split; [exact Hn |].
      split; [apply lookup_insert_eq | congruence].
  - apply paso_menu_admin in Hp as [Hm _]. intros H. contradiction.
Qed.

(** While the user menu is on screen, the session's account is not locked. *)
Lemma alcanzable_sesion_en_regla x : alcanzable x -> sesion_en_regla x.
Proof.
  induction 1 as [f ahora x Hx | x e x' _ IH Hp].
  - unfold arranque in Hx. destruct (init f ahora); [| discriminate].
    injection Hx as <-. intros H. discriminate.
  - exact (paso_sesion_en_regla x e x' IH Hp).
Qed.


Lemma pasos_alcanzable es : forall x x',
  alcanzable x -> pasos es x = Some x' -> alcanzable x'.
Proof.
  induction es as [| e r IH]; intros x x' Hx; cbn [pasos].
  - intros [= <-]. exact Hx.
  - destruct (paso x e) as [x1 |] eqn:E; [| discriminate]. cbn [mbind option_bind].
    apply IH. exact (alc_paso x e x1 Hx E).
Qed.





(** The scenario's engine is the one its calls build. *)
Example motor_dia1_es_alcanzado :
  ejecutar (firstn 2 llamadas_escenario) motor_demo = Some motor_dia1.
Proof. vm_compute. reflexivity. Qed.



End ProgramaProps.

(** ** The data file *)
Module GestorProps.
Import CuentaUsuario GestorDatos Invariantes Escenario.

Lemma tipo_de_value t : TipoTransaccion_de (JStr (TipoTransaccion_value t)) = Ok t.
Proof. destruct t; reflexivity. Qed.

Lemma estado_de_value e : EstadoTransaccion_de (JStr (EstadoTransaccion_value e)) = Ok e.
Proof. destruct e; reflexivity. Qed.

Lemma json_fromisoformat_isoformat t :
  datetime_valido t = true -> Json.fromisoformat (JStr (isoformat t)) = Ok t.
Proof.
  intros H. unfold Json.fromisoformat.
  rewrite (FechasProps.fromisoformat_isoformat t H). reflexivity.
Qed.

(** A transaction reads back from its dictionary. *)
Lemma transaccion_from_dict_to_dict x :
  transaccion_valida x = true -> Transaccion.from_dict (Transaccion.to_dict x) = Ok x.
Proof.
  intros H. unfold Transaccion.from_dict.
  change (get (Transaccion.to_dict x) "tipo")
    with (Ok (JStr (TipoTransaccion_value (Transaccion.tipo x)))).
  change (get (Transaccion.to_dict x) "monto") with (Ok (JNum (Transaccion.monto x))).
  change (get (Transaccion.to_dict x) "estado")
    with (Ok (JStr (EstadoTransaccion_value (Transaccion.estado x)))).
  change (get (Transaccion.to_dict x) "cuenta") with (Ok (JStr (Transaccion.cuenta x))).
  change (get (Transaccion.to_dict x) "detalle") with (Ok (JStr (Transaccion.detalle x))).
  change (get (Transaccion.to_dict x) "timestamp")
    with (Ok (JStr (isoformat (Transaccion.timestamp x)))).
  cbn [mbind resultado_bind]. rewrite tipo_de_value. cbn [mbind resultado_bind].
  rewrite estado_de_value. cbn [mbind resultado_bind].
  rewrite (json_fromisoformat_isoformat _ H). cbn [mbind resultado_bind como_num como_str].
  destruct x; reflexivity.
Qed.

(** An account reads back from its dictionary. *)
Lemma cuenta_from_dict_to_dict c :
  cuenta_valida c = true -> from_dict (to_dict c) = Ok c.
Proof.
  intros H. apply andb_prop in H as [H1 H2]. unfold from_dict.
  change (get (to_dict c) "numero_cuenta") with (Ok (JStr (numero_cuenta c))).
  change (get (to_dict c) "pin_hash") with (Ok (JStr (pin_hash c))).
  change (get (to_dict c) "saldo") with (Ok (JNum (saldo c))).
  change (get (to_dict c) "bloqueada") with (Ok (JBool (bloqueada c))).
  change (get (to_dict c) "intentos_fallidos") with (Ok (JNum (intentos_fallidos c))).
  change (get (to_dict c) "ultimo_retiro_fecha")
    with (Ok (match ultimo_retiro_fecha c with
              | Some d => JStr (date_isoformat d)
              | None => JNull
              end)).
  change (get (to_dict c) "retiros_diarios") with (Ok (JNum (retiros_diarios c))).
  change (get (to_dict c) "fecha_creacion") with (Ok (JStr (isoformat (fecha_creacion c)))).
  cbn [mbind resultado_bind].
  rewrite (json_fromisoformat_isoformat _ H1).
  destruct c as [num pin sal blo int [d |] ret cre]; cbn [ultimo_retiro_fecha] in *.
  - pose proof (FechasProps.fromisoformat_date_isoformat d H2) as Hd.
    cbn [truthy]. rewrite FechasProps.date_isoformat_no_vacio. cbn [negb].
    unfold Json.fromisoformat.
    destruct (Fechas.fromisoformat (date_isoformat d)) as [t |]; [| discriminate].
    injection Hd as <-. reflexivity.
  - reflexivity.
Qed.

Lemma cargar_cuentas_prefijo antes : forall cs resto cuentas,
  Forall2 (fun j c => from_dict j = Ok c) antes cs ->
  cargar_cuentas (antes ++ resto) cuentas = cargar_cuentas resto (indexar cs cuentas).
Proof.
  induction antes as [| j r IH]; intros cs resto cuentas H.
  - apply Forall2_nil_inv_l in H as ->. reflexivity.
  - apply Forall2_cons_inv_l in H as (c & cs' & Hc & Hr & ->).
    cbn [app cargar_cuentas]. rewrite Hc, (IH _ _ _ Hr). reflexivity.
Qed.

Lemma cargar_transacciones_prefijo antes : forall ts resto transacciones,
  Forall2 (fun j x => Transaccion.from_dict j = Ok x) antes ts ->
  cargar_transacciones (antes ++ resto) transacciones
  = cargar_transacciones resto (transacciones ++ ts).
Proof.
  induction antes as [| j r IH]; intros ts resto transacciones H.
  - apply Forall2_nil_inv_l in H as ->. rewrite app_nil_r. reflexivity.
  - apply Forall2_cons_inv_l in H as (x & ts' & Hx & Hr & ->).
    cbn [app cargar_transacciones]. rewrite Hx, (IH _ _ _ Hr), <- app_assoc. reflexivity.
Qed.

(** Assigning the accounts of a dictionary under their own numbers builds
    the dictionary again. *)
Lemma lookup_indexar (l : list (string * CuentaUsuario.t)) : forall acc k,
  NoDup l.*1 ->
  (forall k c, (k, c) ∈ l -> numero_cuenta c = k) ->
  indexar l.*2 acc !! k
  = match (list_to_map l : gmap string CuentaUsuario.t) !! k with
    | Some c => Some c
    | None => acc !! k
    end.
Proof.
  induction l as [| [k0 c0] r IH]; intros acc k Hnd Hk; [reflexivity |].
  cbn [fmap list_fmap snd] in *. apply NoDup_cons in Hnd as [Hk0 Hnd].
  unfold indexar. cbn [fold_left]. fold (indexar r.*2 (<[numero_cuenta c0 := c0]> acc)).
  rewrite IH; [| exact Hnd | intros k' c' H'; apply Hk; right; exact H'].
  rewrite (Hk k0 c0) by left. cbn [list_to_map foldr uncurry].
  destruct (decide (k0 = k)) as [-> | Hne].
  - rewrite (not_elem_of_list_to_map_1 _ _ Hk0), !lookup_insert_eq. reflexivity.
  - rewrite !lookup_insert_ne by exact Hne. reflexivity.
Qed.

Lemma indexar_values (cuentas : gmap string CuentaUsuario.t) :
  map_Forall (fun k c => numero_cuenta c = k) cuentas ->
  indexar (values cuentas) ∅ = cuentas.
Proof.
  intros H. apply map_eq. intros k. unfold values.
  rewrite lookup_indexar.
  - rewrite list_to_map_to_list, lookup_empty. destruct (cuentas !! k); reflexivity.
  - apply NoDup_fst_map_to_list.
  - intros k' c' H'. apply elem_of_map_to_list in H'. exact (H k' c' H').
Qed.

Lemma length_ultimas {A} n (l : list A) : length (ultimas n l) = Nat.min n (length l).
Proof. unfold ultimas. rewrite length_skipn. lia. Qed.

Lemma get_default_documento a b :
  get_default (JDict [("cuentas"%string, a); ("transacciones"%string, b)])
    "cuentas" (JList []) = Ok a
  /\ get_default (JDict [("cuentas"%string, a); ("transacciones"%string, b)])
       "transacciones" (JList []) = Ok b.
Proof. split; reflexivity. Qed.

Lemma cargar_cuentas_to_dict cs cuentas :
  Forall (fun c => cuenta_valida c = true) cs ->
  cargar_cuentas (map to_dict cs) cuentas = (indexar cs cuentas, Ok tt).
Proof.
  intros H. rewrite <- (app_nil_r (map to_dict cs)).
  rewrite (cargar_cuentas_prefijo _ cs); [reflexivity |].
  apply Forall2_fmap_l, Forall_Forall2_diag.
  eapply Forall_impl; [exact H |]. intros c Hc. apply cuenta_from_dict_to_dict, Hc.
Qed.

Lemma cargar_transacciones_to_dict ts transacciones :
  Forall (fun x => transaccion_valida x = true) ts ->
  cargar_transacciones (map Transaccion.to_dict ts) transacciones
  = (transacciones ++ ts, Ok tt).
Proof.
  intros H. rewrite <- (app_nil_r (map Transaccion.to_dict ts)).
  rewrite (cargar_transacciones_prefijo _ ts); [reflexivity |].
  apply Forall2_fmap_l, Forall_Forall2_diag.
  eapply Forall_impl; [exact H |]. intros x Hx. apply transaccion_from_dict_to_dict, Hx.
Qed.

(** What was saved is what is loaded. *)
Lemma cargar_lo_guardado cuentas transacciones :
  map_Forall (fun k c => numero_cuenta c = k /\ cuenta_valida c = true) cuentas ->
  Forall (fun x => transaccion_valida x = true) transacciones ->
  cargar_datos (guardar_datos cuentas transacciones)
  = Devuelve cuentas (ultimas 1000 transacciones).
Proof.
  intros Hc Ht.
  unfold cargar_datos, guardar_datos, cuerpo.
  destruct (get_default_documento
              (JList (map to_dict (values cuentas)))
              (JList (map Transaccion.to_dict (ultimas 1000 transacciones)))) as [-> ->].
  cbn [mbind resultado_bind iterar].
  rewrite cargar_cuentas_to_dict.
  - rewrite cargar_transacciones_to_dict.
    + rewrite indexar_values; [reflexivity |].
      intros k c H. exact (proj1 (Hc k c H)).
    + unfold ultimas. apply Forall_drop, Ht.
  - apply Forall_forall. intros c H. unfold values in H.
    apply list_elem_of_fmap in H as ([k c'] & -> & H).
    apply elem_of_map_to_list in H. exact (proj2 (Hc k c' H)).
Qed.

(** C6.  [cargar_datos] over the file [guardar_datos] wrote returns the
    dictionary of accounts that was saved, every field of every account as
    it was, and the last [min(1000, N)] of the [N] transactions that were
    saved, in their order; the transactions before those are not in the
    file.  (The dictionary is keyed by the accounts' own numbers, and its
    dates, like the transactions' times, are the ones [datetime] objects
    hold.) *)
Theorem guardar_y_cargar cuentas transacciones :
  map_Forall (fun k c => numero_cuenta c = k /\ cuenta_valida c = true) cuentas ->
  Forall (fun x => transaccion_valida x = true) transacciones ->
  cargar_datos (guardar_datos cuentas transacciones)
  = Devuelve cuentas (ultimas 1000 transacciones)
  /\ length (ultimas 1000 transacciones) = Nat.min 1000 (length transacciones)
  /\ transacciones
     = firstn (length transacciones - 1000) transacciones ++ ultimas 1000 transacciones.
Proof.
  intros Hc Ht. split; [apply cargar_lo_guardado; assumption |].
  split; [apply length_ultimas | symmetry; apply firstn_skipn].
Qed.

Lemma guardar_y_cargar_testigo :
  map_Forall (fun k c => numero_cuenta c = k /\ cuenta_valida c = true)
    (CajeroAutomatico.cuentas motor_dia1)
  /\ Forall (fun x => transaccion_valida x = true) (CajeroAutomatico.transacciones motor_dia1)
  /\ cargar_datos (guardar_datos (CajeroAutomatico.cuentas motor_dia1)
                     (CajeroAutomatico.transacciones motor_dia1))
     = Devuelve (CajeroAutomatico.cuentas motor_dia1)
         (CajeroAutomatico.transacciones motor_dia1).
Proof.
  assert (map_Forall (fun k c => numero_cuenta c = k /\ cuenta_valida c = true)
            (CajeroAutomatico.cuentas motor_dia1)) as H1
    by (apply map_Forall_singleton; split; reflexivity).
  assert (Forall (fun x => transaccion_valida x = true)
            (CajeroAutomatico.transacciones motor_dia1)) as H2
    by (repeat constructor).
  split; [exact H1 |]. split; [exact H2 |].
  exact (proj1 (guardar_y_cargar _ _ H1 H2)).
Defined.

(** More than 1000 transactions: the file keeps the last 1000. *)
Example ultimas_de_1002 :
  ultimas 1000 (seq 0 1002) = seq 2 1000.
Proof. vm_compute. reflexivity. Qed.




End GestorProps.

(** ** What the engine holds can be saved and loaded *)
Module EstadoProps.
Import CuentaUsuario CajeroAutomatico AdministradorATM Motor GestorDatos Invariantes.

Lemma fromisoformat_valido s t :
  Fechas.fromisoformat s = Some t -> datetime_valido t = true.
Proof.
  unfold Fechas.fromisoformat, leer_fecha.
  destruct (leer_digitos 4 0 _) as [[y l1] |]; [| discriminate]. cbn [mbind option_bind].
  destruct (leer_car "-" l1) as [l2 |]; [| discriminate]. cbn [mbind option_bind].
  destruct (leer_digitos 2 0 l2) as [[m l3] |]; [| discriminate]. cbn [mbind option_bind].
  destruct (leer_car "-" l3) as [l4 |]; [| discriminate]. cbn [mbind option_bind].
  destruct (leer_digitos 2 0 l4) as [[d l5] |]; [| discriminate]. cbn [mbind option_bind].
  destruct (fecha_valida (mkdate y m d)) eqn:Hf; [| discriminate]. cbn [mbind option_bind].
  destruct l5 as [| a l5].
  - intros [= <-]. unfold datetime_valido. cbn. rewrite Hf. reflexivity.
  - unfold leer_hora.
    destruct (leer_car "T" _) as [l6 |]; [| discriminate]. cbn [mbind option_bind].
    destruct (leer_digitos 2 0 l6) as [[h l7] |]; [| discriminate]. cbn [mbind option_bind].
    destruct (leer_car ":" l7) as [l8 |]; [| discriminate]. cbn [mbind option_bind].
    destruct (leer_digitos 2 0 l8) as [[mi l9] |]; [| discriminate]. cbn [mbind option_bind].
    destruct (leer_car ":" l9) as [l10 |]; [| discriminate]. cbn [mbind option_bind].
    destruct (leer_digitos 2 0 l10) as [[se l11] |]; [| discriminate]. cbn [mbind option_bind].
    destruct (match l11 with [] => _ | _ => _ end) as [[us l12] |]; [| discriminate].
    cbn [mbind option_bind].
    destruct l12; [| discriminate].
    destruct (datetime_valido _) eqn:Hv; [| discriminate].
    intros [= <-]. exact Hv.
Qed.

Lemma fecha_de_datetime_valido t : datetime_valido t = true -> fecha_valida (to_date t) = true.
Proof. unfold datetime_valido. intros H. do 8 (apply andb_prop in H as [H _]). exact H. Qed.

Lemma json_fromisoformat_valido v t :
  Json.fromisoformat v = Ok t -> datetime_valido t = true.
Proof.
  destruct v as [| | | str | |]; try discriminate. cbn [Json.fromisoformat].
  destruct (Fechas.fromisoformat str) as [t' |] eqn:E; [| discriminate].
  intros [= <-]. exact (fromisoformat_valido _ _ E).
Qed.

Lemma bind_Ok {A B} (m : resultado A) (f : A -> resultado B) b :
  m ≫= f = Ok b -> exists a, m = Ok a /\ f a = Ok b.
Proof. destruct m as [a | e |]; try discriminate. intros H. exists a. split; [reflexivity | exact H]. Qed.

(** A decoded account has dates of the calendar. *)
Lemma from_dict_valida data c : from_dict data = Ok c -> cuenta_valida c = true.
Proof.
  intros H. unfold from_dict in H.
  repeat (apply bind_Ok in H as (? & ? & H)). injection H as <-.
  unfold cuenta_valida. cbn [fecha_creacion ultimo_retiro_fecha].
  apply andb_true_intro. split.
  - match goal with
    | Hc : Json.fromisoformat _ = Ok ?t |- datetime_valido ?t = true =>
        exact (json_fromisoformat_valido _ _ Hc)
    end.
  - match goal with
    | Hu : (if truthy ?v then _ else _) = Ok _ |- _ =>
        destruct (truthy v);
        [ apply bind_Ok in Hu as (t & Ht & [= <-]);
          apply fecha_de_datetime_valido, (json_fromisoformat_valido _ _ Ht)
        | injection Hu as <-; reflexivity ]
    end.
Qed.

(** A decoded transaction has a time of the calendar. *)
Lemma transaccion_from_dict_valida data x :
  Transaccion.from_dict data = Ok x -> transaccion_valida x = true.
Proof.
  intros H. unfold Transaccion.from_dict in H.
  repeat (apply bind_Ok in H as (? & ? & H)). injection H as <-.
  unfold transaccion_valida. cbn [Transaccion.timestamp].
  match goal with
  | Hc : Json.fromisoformat _ = Ok ?t |- datetime_valido ?t = true =>
      exact (json_fromisoformat_valido _ _ Hc)
  end.
Qed.

Lemma cargar_cuentas_guardable l : forall cuentas,
  map_Forall guardable cuentas -> map_Forall guardable (fst (cargar_cuentas l cuentas)).
Proof.
  induction l as [| j r IH]; intros cuentas H; [exact H |].
  cbn [cargar_cuentas]. destruct (from_dict j) as [c | e |] eqn:E; try exact H.
  apply IH, map_Forall_insert_2; [| exact H].
  split; [reflexivity | exact (from_dict_valida _ _ E)].
Qed.

Lemma cargar_transacciones_validas l : forall ts,
  Forall (fun x => transaccion_valida x = true) ts ->
  Forall (fun x => transaccion_valida x = true) (fst (cargar_transacciones l ts)).
Proof.
  induction l as [| j r IH]; intros ts H; [exact H |].
  cbn [cargar_transacciones].
  destruct (Transaccion.from_dict j) as [x | e |] eqn:E; try exact H.
  apply IH, Forall_app. split; [exact H |].
  constructor; [exact (transaccion_from_dict_valida _ _ E) | constructor].
Qed.

(** Whatever the file, what [cargar_datos] returns can be saved again. *)
Lemma cargar_datos_guardable f cuentas transacciones :
  cargar_datos f = Devuelve cuentas transacciones ->
  map_Forall guardable cuentas
  /\ Forall (fun x => transaccion_valida x = true) transacciones.
Proof.
  assert (map_Forall guardable (∅ : gmap string CuentaUsuario.t)) as H0
    by apply map_Forall_empty.
  destruct f as [| | data]; cbn [cargar_datos];
    try (intros [= <- <-]; split; [exact H0 | constructor]).
  unfold cuerpo.
  destruct (_ ≫= _) as [l | e |].
  - pose proof (cargar_cuentas_guardable l ∅ H0) as Hc.
    destruct (cargar_cuentas l ∅) as [cs r]. cbn [fst] in Hc.
    destruct r as [[] | e |].
    + destruct (_ ≫= _) as [l' | e |].
      * pose proof (cargar_transacciones_validas l' [] ltac:(constructor)) as Ht.
        destruct (cargar_transacciones l' []) as [ts r']. cbn [fst] in Ht.
        destruct r' as [[] | e |]; [| destruct (capturada e) |]; try discriminate;
          intros [= <- <-]; split; assumption.
      * destruct (capturada e); [| discriminate].
        intros [= <- <-]. split; [exact Hc | constructor].
      * discriminate.
    + destruct (capturada e); [| discriminate].
      intros [= <- <-]. split; [exact Hc | constructor].
    + discriminate.
  - destruct (capturada e); [| discriminate].
    intros [= <- <-]. split; [exact H0 | constructor].
  - discriminate.
Qed.

Lemma puede_retirar_guardable k monto hoy c :
  fecha_valida hoy = true -> guardable k c -> guardable k (snd (puede_retirar monto hoy c)).
Proof.
  intros Hh [H1 H2]. rewrite CuentaProps.puede_retirar_cuenta.
  destruct (_ || _ || _); [split; assumption |].
  split; [exact H1 |]. unfold cuenta_valida in *. cbn.
  apply andb_prop in H2 as [H2 _]. rewrite H2, Hh. reflexivity.
Qed.

Lemma retirar_guardable k monto hoy c :
  fecha_valida hoy = true -> guardable k c -> guardable k (snd (retirar monto hoy c)).
Proof.
  intros Hh Hc. rewrite CuentaProps.retirar_desde_puede. cbv zeta.
  pose proof (puede_retirar_guardable k monto hoy c Hh Hc) as H.
  destruct (fst (fst _)); exact H.
Qed.

Lemma depositar_guardable k monto c :
  guardable k c -> guardable k (snd (depositar monto c)).
Proof. intros H. unfold depositar. destruct (_ >? _); exact H. Qed.

Lemma cambiar_pin_guardable k a n c :
  guardable k c -> guardable k (snd (CuentaUsuario.cambiar_pin a n c)).
Proof. intros H. unfold CuentaUsuario.cambiar_pin. destruct (_ && _); exact H. Qed.

Lemma registrar_guardable ahora tipo monto estado detalle s :
  datetime_valido ahora = true ->
  estado_guardable s ->
  estado_guardable (registrar_transaccion ahora tipo monto estado detalle s).
Proof.
  intros Ha [H1 H2]. split; [exact H1 |].
  cbn. apply Forall_app. split; [exact H2 |]. constructor; [exact Ha | constructor].
Qed.

Lemma poner_guardable n c s :
  estado_guardable s -> guardable n c -> estado_guardable (poner_cuenta n c s).
Proof.
  intros [H1 H2] Hc. split; [| exact H2].
  cbn. apply map_Forall_insert_2; assumption.
Qed.

Lemma cuenta_guardable s n c :
  estado_guardable s -> cuentas s !! n = Some c -> guardable n c.
Proof. intros [H _] Hc. exact (H n c Hc). Qed.

Lemma pedir_pin_guardable intentos : forall pins n ahora s,
  datetime_valido ahora = true ->
  estado_guardable s ->
  estado_guardable (snd (pedir_pin intentos pins n ahora s)).
Proof.
  induction intentos as [| i r IH]; intros pins n ahora s Ha Hs; [exact Hs |].
  cbn [pedir_pin]. destruct (Texto.vacio _); [exact Hs |].
  destruct (cuentas s !! n) as [c |] eqn:Hc; [| exact Hs].
  pose proof (cuenta_guardable _ _ _ Hs Hc) as H0.
  destruct (CuentaUsuario.verificar_pin _ c).
  - cbn [snd]. apply registrar_guardable; [exact Ha |].
    apply (poner_guardable n _ (con_sesion (Some n) true s)); [exact Hs | exact H0].
  - apply IH; [exact Ha |]. destruct (_ >? 0).
    + apply poner_guardable; [exact Hs | exact H0].
    + apply registrar_guardable; [exact Ha |].
      apply poner_guardable; [exact Hs | exact H0].
Qed.

(** Every call of the engine with calendar dates leaves a state that can be
    saved. *)
Lemma llamar_guardable l s s' :
  llamada_valida l = true ->
  estado_guardable s -> llamar l s = Some s' -> estado_guardable s'.
Proof.
  intros Hl Hs.
  destruct l as [ numero pins ahora | monto hoy1 confirma hoy2 ahora | monto confirma ahora
                | ahora | pin_actual pin_nuevo pin_conf ahora | confirma
                | numero confirma | numero pin saldo_inicial ahora | confirma ];
    cbn [llamar llamada_valida] in *.
  - intros [= <-]. unfold autenticar_usuario.
    destruct (cuentas s !! numero) as [c |].
    + destruct (bloqueada c); [exact Hs |]. apply pedir_pin_guardable; assumption.
    + apply registrar_guardable; assumption.
  - apply andb_prop in Hl as [Hl Ha]. apply andb_prop in Hl as [Hh1 Hh2].
    unfold procesar_retiro.
    destruct (cuenta_actual s) as [n |]; [| discriminate]. cbn [mbind option_bind].
    destruct (cuentas s !! n) as [c |] eqn:Hc; [| discriminate]. cbn [mbind option_bind].
    pose proof (puede_retirar_guardable n monto hoy1 c Hh1 (cuenta_guardable _ _ _ Hs Hc)) as H1.
    destruct (puede_retirar monto hoy1 c) as [[puede msg] c1]. cbn [snd] in H1.
    pose proof (poner_guardable n c1 s Hs H1) as Hs1.
    destruct puede; cbn [negb];
      [| intros [= <-]; apply registrar_guardable; assumption].
    destruct confirma; [| intros [= <-]; apply registrar_guardable; assumption].
    pose proof (retirar_guardable n monto hoy2 c1 Hh2 H1) as H2.
    destruct (retirar monto hoy2 c1) as [hecho c2]. cbn [snd] in H2.
    destruct hecho; intros [= <-]; apply registrar_guardable; try assumption;
      apply poner_guardable; assumption.
  - unfold procesar_deposito. destruct monto as [m |]; [| intros [= <-]; exact Hs].
    destruct (m =? 0); [intros [= <-]; exact Hs |].
    destruct confirma; [| intros [= <-]; apply registrar_guardable; assumption].
    destruct (cuenta_actual s) as [n |]; [| discriminate]. cbn [mbind option_bind].
    destruct (cuentas s !! n) as [c |] eqn:Hc; [| discriminate]. cbn [mbind option_bind].
    pose proof (depositar_guardable n m c (cuenta_guardable _ _ _ Hs Hc)) as H1.
    destruct (depositar m c) as [hecho c1]. cbn [snd] in H1.
    destruct hecho; intros [= <-]; apply registrar_guardable; try assumption;
      apply poner_guardable; assumption.
  - unfold consultar_saldo.
    destruct (cuenta_actual s) as [n |]; [| discriminate]. cbn [mbind option_bind].
    destruct (cuentas s !! n); [| discriminate]. intros [= <-].
    apply registrar_guardable; assumption.
  - unfold CajeroAutomatico.cambiar_pin.
    destruct (Texto.vacio pin_actual); [intros [= <-]; exact Hs |].
    destruct (Texto.vacio pin_nuevo); [intros [= <-]; exact Hs |].
    destruct (bool_decide _); [intros [= <-]; exact Hs |].
    destruct (cuenta_actual s) as [n |]; [| discriminate]. cbn [mbind option_bind].
    destruct (cuentas s !! n) as [c |] eqn:Hc; [| discriminate]. cbn [mbind option_bind].
    pose proof (cambiar_pin_guardable n pin_actual pin_nuevo c
                  (cuenta_guardable _ _ _ Hs Hc)) as H1.
    destruct (CuentaUsuario.cambiar_pin pin_actual pin_nuevo c) as [hecho c1].
    cbn [snd] in H1.
    destruct hecho; intros [= <-]; apply registrar_guardable; try assumption;
      apply poner_guardable; assumption.
  - intros [= <-]. unfold cerrar_sesion. destruct confirma; exact Hs.
  - intros [= <-]. unfold desbloquear_cuenta.
    destruct (cuentas s !! numero) as [c |] eqn:Hc; [| exact Hs].
    destruct (negb _); [exact Hs |]. destruct confirma; [| exact Hs].
    apply poner_guardable; [exact Hs |]. exact (cuenta_guardable _ _ _ Hs Hc).
  - intros [= <-]. unfold crear_cuenta.
    destruct (_ || _); [exact Hs |]. destruct (bool_decide _); [exact Hs |].
    destruct (Texto.vacio pin); [exact Hs |].
    destruct saldo_inicial as [v |]; [| exact Hs].
    destruct (v <? 0); [exact Hs |].
    apply poner_guardable; [exact Hs |]. split; [reflexivity |].
    unfold cuenta_valida. cbn. rewrite Hl. reflexivity.
  - intros [= <-]. unfold limpiar_logs.
    destruct (transacciones s); [exact Hs |]. destruct confirma; [| exact Hs].
    destruct Hs as [H1 _]. split; [exact H1 | constructor].
Qed.

Lemma init_guardable f ahora s :
  datetime_valido ahora = true -> init f ahora = Some s -> estado_guardable s.
Proof.
  intros Ha. unfold init.
  destruct (cargar_datos f) as [cs ts | e |] eqn:E; try discriminate.
  destruct (cargar_datos_guardable f cs ts E) as [H1 H2].
  assert (estado_guardable (CajeroAutomatico.mk cs ts None false)) as H0
    by (split; assumption).
  destruct (decide (cs = ∅)); intros [= <-]; [| exact H0].
  apply poner_guardable; [exact H0 |]. split; [reflexivity |].
  unfold cuenta_valida. cbn. rewrite Ha. reflexivity.
Qed.

(** X14.  Whatever the data file the engine started from and whatever calls it then
    served, with calendar dates from the clock: the file [guardar_datos]
    writes from the engine's state loads as the accounts of that state and
    the last 1000 of its transactions. *)
Lemma motor_guardar_y_cargar f ahora ls s0 s :
  datetime_valido ahora = true ->
  init f ahora = Some s0 ->
  Forall (fun l => llamada_valida l = true) ls ->
  ejecutar ls s0 = Some s ->
  cargar_datos (guardar_datos (cuentas s) (transacciones s))
  = Devuelve (cuentas s) (ultimas 1000 (transacciones s)).
Proof.
  intros Ha Hi Hls He.
  assert (estado_guardable s) as [H1 H2].
  { pose proof (init_guardable f ahora s0 Ha Hi) as H0. clear Hi.
    revert s0 H0 He. induction Hls as [| l r Hl _ IH]; intros s0 H0; cbn [ejecutar].
    - intros [= <-]. exact H0.
    - destruct (llamar l s0) as [s1 |] eqn:E; [| discriminate]. cbn [mbind option_bind].
      apply IH. exact (llamar_guardable l s0 s1 Hl H0 E). }
  apply GestorProps.cargar_lo_guardado; assumption.
Qed.

End EstadoProps.

(** ** More on the account: refusals, the limit of the day *)
Module CuentaExtras.
Import CuentaUsuario Especificacion Escenario Auditoria.

(** A check that refuses leaves the account as it was: the restart of the
    day is never followed by a refusal, since an amount within the limit of
    one withdrawal is within the limit of the day. *)
Lemma puede_retirar_rechazo monto hoy c :
  fst (fst (puede_retirar monto hoy c)) = false -> snd (puede_retirar monto hoy c) = c.
Proof.
  unfold puede_retirar.
  destruct (saldo c <? monto); [reflexivity |].
  destruct (monto >? LIMITE_RETIRO_TRANSACCION) eqn:E; [reflexivity |].
  rewrite Z.gtb_ltb in E. apply Z.ltb_ge in E. unfold LIMITE_RETIRO_TRANSACCION in E.
  destruct (bool_decide (ultimo_retiro_fecha c <> Some hoy)).
  - cbn [retiros_diarios con_ultimo_retiro_fecha con_retiros_diarios].
    assert ((0 + monto >? LIMITE_RETIRO_DIARIO) = false) as ->
      by (rewrite Z.gtb_ltb; apply Z.ltb_ge; unfold LIMITE_RETIRO_DIARIO; lia).
    discriminate.
  - destruct (_ >? _); [reflexivity | discriminate].
Qed.

(** X1.  [retirar] that fails has changed nothing. *)
Theorem retirar_rechazado_no_cambia monto hoy c :
  fst (retirar monto hoy c) = false -> retirar monto hoy c = (false, c).
Proof.
  rewrite CuentaProps.retirar_desde_puede. cbv zeta.
  destruct (fst (fst (puede_retirar monto hoy c))) eqn:E; [discriminate |].
  intros _. rewrite (puede_retirar_rechazo monto hoy c E). reflexivity.
Qed.

Lemma retirar_rechazado_no_cambia_testigo :
  fst (retirar 30000 dia1 (con_retiros_diarios 180000 cuenta_dia1)) = false
  /\ retirar 30000 dia1 (con_retiros_diarios 180000 cuenta_dia1)
     = (false, con_retiros_diarios 180000 cuenta_dia1).
Proof.
  assert (fst (retirar 30000 dia1 (con_retiros_diarios 180000 cuenta_dia1)) = false) as H
    by reflexivity.
  split; [exact H |]. exact (retirar_rechazado_no_cambia _ _ _ H).
Defined.




End CuentaExtras.

(** ** More on the engine: what each call leaves *)
Module MotorExtras.
Import CuentaUsuario CajeroAutomatico AdministradorATM Motor Invariantes Especificacion
  Escenario Auditoria.

Section Conserva.

(** A property of accounts that every method of [CuentaUsuario] and every
    assignment of the engine keeps, and that a new account has. *)
Variable P : CuentaUsuario.t -> Prop.
Hypothesis P_puede_retirar : forall m h c, P c -> P (snd (puede_retirar m h c)).
Hypothesis P_retirar : forall m h c, P c -> P (snd (retirar m h c)).
Hypothesis P_depositar : forall m c, P c -> P (snd (depositar m c)).
Hypothesis P_cambiar_pin : forall a n c, P c -> P (snd (CuentaUsuario.cambiar_pin a n c)).
Hypothesis P_intentos : forall v c, P c -> P (con_intentos_fallidos v c).
Hypothesis P_bloqueada : forall v c, P c -> P (con_bloqueada v c).
Hypothesis P_nueva : forall n p x ahora, 0 <= x -> P (nueva n p x ahora).






End Conserva.



Lemma cuenta_eta c :
  c = CuentaUsuario.mk (numero_cuenta c) (pin_hash c) (saldo c) (bloqueada c)
        (intentos_fallidos c) (ultimo_retiro_fecha c) (retiros_diarios c)
        (fecha_creacion c).
Proof. destruct c; reflexivity. Qed.

Lemma puede_retirar_datos monto hoy c :
  mismos_datos c (snd (puede_retirar monto hoy c))
  /\ pin_hash (snd (puede_retirar monto hoy c)) = pin_hash c.
Proof.
  rewrite CuentaProps.puede_retirar_cuenta.
  destruct (_ || _ || _); repeat split; reflexivity.
Qed.

Lemma retirar_datos monto hoy c :
  mismos_datos c (snd (retirar monto hoy c))
  /\ pin_hash (snd (retirar monto hoy c)) = pin_hash c.
Proof.
  rewrite CuentaProps.retirar_desde_puede. cbv zeta.
  destruct (puede_retirar_datos monto hoy c) as [(H1 & H2 & H3 & H4) H5].
  destruct (fst (fst _)); cbn; repeat split; assumption.
Qed.




(** X4.  A withdrawal the check refuses logs the refusal with its reason and
    changes no account, whatever the answer to the confirmation would be. *)
Theorem retiro_rechazado monto hoy1 confirma hoy2 ahora s n c :
  cuenta_actual s = Some n ->
  cuentas s !! n = Some c ->
  fst (fst (puede_retirar monto hoy1 c)) = false ->
  procesar_retiro monto hoy1 confirma hoy2 ahora s
  = Some (CajeroAutomatico.mk (cuentas s)
            (transacciones s
               ++ [Transaccion.mk ahora RETIRO monto FALLIDA (numero_cuenta c)
                     (snd (fst (puede_retirar monto hoy1 c)))])
            (Some n) (sesion_activa s)).
Proof.
  intros Hn Hc Hp. unfold procesar_retiro. rewrite Hn. cbn [mbind option_bind].
  rewrite Hc. cbn [mbind option_bind].
  pose proof (CuentaExtras.puede_retirar_rechazo monto hoy1 c Hp) as Hr.
  destruct (puede_retirar monto hoy1 c) as [[puede msg] c1]. cbn [fst snd] in *.
  subst puede c1. cbn [negb].
  unfold registrar_transaccion, cuenta_sesion, poner_cuenta, con_cuentas, con_transacciones.
  cbn [cuenta_actual cuentas transacciones sesion_activa]. rewrite Hn.
  cbn [mbind option_bind]. rewrite lookup_insert_eq, (insert_id _ _ _ Hc). reflexivity.
Qed.

Lemma retiro_rechazado_testigo :
  cuenta_actual motor_dia1 = Some "123456"%string
  /\ cuentas motor_dia1 !! "123456"%string = Some cuenta_dia1
  /\ fst (fst (puede_retirar 50001 dia1 cuenta_dia1)) = false
  /\ (fun s' => (cuentas s', Transaccion.detalle <$> last (transacciones s')))
       <$> procesar_retiro 50001 dia1 true dia1 (instante dia1) motor_dia1
     = Some (cuentas motor_dia1, Some msg_saldo_insuficiente).
Proof.
  split; [reflexivity |]. split; [reflexivity |]. split; [reflexivity |].
  rewrite (retiro_rechazado 50001 dia1 true dia1 (instante dia1) motor_dia1
             "123456"%string cuenta_dia1 eq_refl eq_refl eq_refl).
  reflexivity.
Defined.



End MotorExtras.

(** ** The log against the money of the accounts *)
Module AuditoriaProps.
Import CuentaUsuario CajeroAutomatico AdministradorATM Motor Invariantes Escenario
  Auditoria Estadisticas.

Lemma suma_desde (l : list Z) : forall a, fold_left Z.add l a = a + foldr Z.add 0 l.
Proof.
  induction l as [| x r IH]; intros a; cbn [fold_left foldr]; [lia |].
  rewrite IH. lia.
Qed.

Lemma suma_permutada (l l' : list Z) : l ≡ₚ l' -> foldr Z.add 0 l = foldr Z.add 0 l'.
Proof. induction 1; cbn [foldr]; lia. Qed.

Lemma total_saldo_cuenta_nueva n c' s :
  cuentas s !! n = None ->
  total_saldo (poner_cuenta n c' s) = total_saldo s + saldo c'.
Proof.
  intros H. unfold total_saldo, poner_cuenta, con_cuentas, GestorDatos.values.
  cbn [cuentas]. rewrite !suma_desde.
  rewrite (suma_permutada _ (saldo c' :: (saldo <$> (map_to_list (cuentas s)).*2))).
  - cbn [foldr]. lia.
  - rewrite (map_to_list_insert _ _ _ H). reflexivity.
Qed.














(** X7.  An account the administrator creates enters the dictionary under its
    number with the initial balance, not locked; the creation writes nothing
    in the log, so the sum of the balances rises by the initial balance without
    a record; and the account logs in with its initial PIN. *)
Theorem cuenta_creada numero pin v ahora ahora2 s :
  Texto.isdigit numero = true ->
  Texto.len numero = 6 ->
  cuentas s !! numero = None ->
  Texto.vacio pin = false ->
  0 <= v ->
  cuentas (crear_cuenta numero pin (Some v) ahora s)
  = <[numero := CuentaUsuario.mk numero (SistemaSeguridad.hash_pin pin) v false 0 None 0
                  ahora]> (cuentas s)
  /\ transacciones (crear_cuenta numero pin (Some v) ahora s) = transacciones s
  /\ total_saldo (crear_cuenta numero pin (Some v) ahora s) = total_saldo s + v
  /\ fst (autenticar_usuario numero [pin] ahora2 (crear_cuenta numero pin (Some v) ahora s))
     = true.
Proof.
  intros Hd Hl Hn Hp Hv. unfold crear_cuenta.
  rewrite Hd, Hl, Hp. cbn [negb orb Z.eqb Pos.eqb].
  rewrite bool_decide_eq_false_2 by (rewrite Hn; intros [? [=]]).
  replace (v <? 0) with false by lia.
  split; [reflexivity |]. split; [reflexivity |].
  split; [exact (total_saldo_cuenta_nueva numero (nueva numero pin v ahora) s Hn) |].
  unfold autenticar_usuario, poner_cuenta, con_cuentas. cbn [cuentas].
  rewrite lookup_insert_eq. cbn [bloqueada nueva].
  unfold INTENTOS_PIN_MAXIMOS. cbn [seq pedir_pin hd]. rewrite Hp.
  cbn [cuentas]. rewrite lookup_insert_eq.
  unfold CuentaUsuario.verificar_pin, SistemaSeguridad.verificar_pin. cbn [pin_hash].
  rewrite bool_decide_eq_true_2 by reflexivity. reflexivity.
Qed.

Lemma cuenta_creada_testigo :
  Texto.isdigit "654321" = true
  /\ Texto.len "654321" = 6
  /\ cuentas motor_demo !! "654321"%string = None
  /\ Texto.vacio "4321" = false
  /\ 0 <= 700
  /\ total_saldo (crear_cuenta "654321" "4321" (Some 700) (instante dia1) motor_demo)
     = 100700.
Proof.
  split; [reflexivity |]. split; [reflexivity |]. split; [reflexivity |].
  split; [reflexivity |]. split; [lia |].
  rewrite (proj1 (proj2 (proj2
    (cuenta_creada "654321" "4321" 700 (instante dia1) (instante dia2) motor_demo
       eq_refl eq_refl eq_refl eq_refl ltac:(lia))))).
  vm_compute. reflexivity.
Defined.

End AuditoriaProps.

(** ** The session, the administrator and the other accounts *)
Module SesionExtras.
Import CuentaUsuario CajeroAutomatico AdministradorATM Motor Programa Invariantes Escenario
  Auditoria.

(** X8.  The creation of an account never replaces or changes an account that
    exists, whatever number, PIN and balance are typed. *)
Theorem crear_cuenta_no_pisa numero pin saldo_inicial ahora s k c :
  cuentas s !! k = Some c ->
  cuentas (crear_cuenta numero pin saldo_inicial ahora s) !! k = Some c.
Proof.
  intros H. unfold crear_cuenta.
  destruct (_ || _); [exact H |].
  destruct (bool_decide _) eqn:Hb; [exact H |].
  apply bool_decide_eq_false in Hb. rewrite <- eq_None_not_Some in Hb.
  destruct (Texto.vacio pin); [exact H |].
  destruct saldo_inicial as [v |]; [| exact H].
  destruct (v <? 0); [exact H |].
  unfold poner_cuenta, con_cuentas. cbn [cuentas].
  rewrite lookup_insert_ne; [exact H | congruence].
Qed.

Lemma crear_cuenta_no_pisa_testigo :
  cuentas motor_demo !! "123456"%string = Some cuenta_demo
  /\ cuentas (crear_cuenta "123456" "9999" (Some 5) (instante dia2) motor_demo)
       !! "123456"%string = Some cuenta_demo.
Proof.
  split; [reflexivity |].
  apply (crear_cuenta_no_pisa "123456" "9999" (Some 5) (instante dia2) motor_demo).
  reflexivity.
Defined.

Lemma mismos_datos_refl c : mismos_datos c c.
Proof. repeat split. Qed.

Lemma mismos_datos_trans c1 c2 c3 :
  mismos_datos c1 c2 -> mismos_datos c2 c3 -> mismos_datos c1 c3.
Proof.
  intros (A1 & A2 & A3 & A4) (B1 & B2 & B3 & B4).
  repeat split; congruence.
Qed.

Lemma depositar_datos m c : mismos_datos c (snd (depositar m c)).
Proof. unfold depositar. destruct (_ >? _); repeat split. Qed.

Lemma cambiar_pin_datos a n c : mismos_datos c (snd (CuentaUsuario.cambiar_pin a n c)).
Proof. unfold CuentaUsuario.cambiar_pin. destruct (_ && _); repeat split. Qed.

Lemma marco_nada s n c :
  cuenta_actual s = Some n -> cuentas s !! n = Some c -> marco s s n c.
Proof.
  intros Hn Hc. exists c, []. rewrite (insert_id _ _ _ Hc), app_nil_r.
  repeat split; auto.
Qed.

Lemma marco_registrar ahora tipo monto estado detalle s n c c' :
  cuenta_actual s = Some n -> cuentas s !! n = Some c -> mismos_datos c c' ->
  marco s (registrar_transaccion ahora tipo monto estado detalle (poner_cuenta n c' s)) n c.
Proof.
  intros Hn Hc Hd. exists c', [Transaccion.mk ahora tipo monto estado (numero_cuenta c) detalle].
  unfold registrar_transaccion, cuenta_sesion, poner_cuenta, con_cuentas, con_transacciones.
  cbn [cuenta_actual cuentas transacciones sesion_activa]. rewrite Hn.
  cbn [mbind option_bind]. rewrite lookup_insert_eq.
  pose proof Hd as (D1 & _). rewrite D1.
  split; [reflexivity |]. split; [exact Hd |]. split; [reflexivity |].
  split; [cbn; lia |]. split; [repeat constructor |]. split; reflexivity.
Qed.

Lemma llamar_marco l s s' n c :
  de_sesion l = true ->
  cuenta_actual s = Some n ->
  cuentas s !! n = Some c ->
  llamar l s = Some s' ->
  marco s s' n c.
Proof.
  destruct l as [ | monto hoy1 confirma hoy2 ahora | monto confirma ahora | ahora
                | pa pn pc ahora | | | | ]; try discriminate;
    intros _ Hn Hc; cbn [llamar].
  - unfold procesar_retiro. rewrite Hn. cbn [mbind option_bind].
    rewrite Hc. cbn [mbind option_bind].
    destruct (MotorExtras.puede_retirar_datos monto hoy1 c) as [H1 _].
    destruct (puede_retirar monto hoy1 c) as [[puede msg] c1]. cbn [snd] in H1.
    destruct puede; cbn [negb].
    + destruct confirma.
      * destruct (MotorExtras.retirar_datos monto hoy2 c1) as [H2 _].
        destruct (retirar monto hoy2 c1) as [hecho c2]. cbn [snd] in H2.
        assert (poner_cuenta n c2 (poner_cuenta n c1 s) = poner_cuenta n c2 s) as ->.
        { unfold poner_cuenta, con_cuentas. cbn. rewrite insert_insert_eq. reflexivity. }
        destruct hecho; intros [= <-]; apply marco_registrar; auto;
          apply (mismos_datos_trans _ _ _ H1 H2).
      * intros [= <-]. apply marco_registrar; auto.
    + intros [= <-]. apply marco_registrar; auto.
  - unfold procesar_deposito. destruct monto as [m |];
      [| intros [= <-]; apply marco_nada; auto].
    destruct (m =? 0); [intros [= <-]; apply marco_nada; auto |].
    destruct confirma.
    + rewrite Hn. cbn [mbind option_bind]. rewrite Hc. cbn [mbind option_bind].
      pose proof (depositar_datos m c) as H1.
      destruct (depositar m c) as [hecho c1]. cbn [snd] in H1.
      destruct hecho; intros [= <-]; apply marco_registrar; auto.
    + intros [= <-]. replace s with (poner_cuenta n c s) at 2.
      * apply marco_registrar; auto using mismos_datos_refl.
      * destruct s. unfold poner_cuenta, con_cuentas. cbn in *.
        rewrite (insert_id _ _ _ Hc). reflexivity.
  - unfold consultar_saldo. rewrite Hn. cbn [mbind option_bind].
    rewrite Hc. cbn [mbind option_bind]. intros [= <-].
    replace s with (poner_cuenta n c s) at 2.
    + apply marco_registrar; auto using mismos_datos_refl.
    + destruct s. unfold poner_cuenta, con_cuentas. cbn in *.
      rewrite (insert_id _ _ _ Hc). reflexivity.
  - unfold CajeroAutomatico.cambiar_pin.
    destruct (Texto.vacio pa); [intros [= <-]; apply marco_nada; auto |].
    destruct (Texto.vacio pn); [intros [= <-]; apply marco_nada; auto |].
    destruct (bool_decide _); [intros [= <-]; apply marco_nada; auto |].
    rewrite Hn. cbn [mbind option_bind]. rewrite Hc. cbn [mbind option_bind].
    pose proof (cambiar_pin_datos pa pn c) as H1.
    destruct (CuentaUsuario.cambiar_pin pa pn c) as [hecho c1]. cbn [snd] in H1.
    destruct hecho; intros [= <-]; apply marco_registrar; auto.
Qed.

(** X9.  A call of the user menu (withdrawal, deposit, balance, change of PIN)
    touches the session's account only: every other account is as it was; the
    session's account keeps its number, lock, failed attempts and creation
    time; the session stays bound; and the log gets at most one record, under
    the account's number. *)
Theorem operacion_de_sesion l s s' n c :
  de_sesion l = true ->
  cuenta_actual s = Some n ->
  cuentas s !! n = Some c ->
  llamar l s = Some s' ->
  exists c' nuevos,
    cuentas s' = <[n := c']> (cuentas s)
    /\ mismos_datos c c'
    /\ transacciones s' = transacciones s ++ nuevos
    /\ (length nuevos <= 1)%nat
    /\ Forall (fun x => Transaccion.cuenta x = numero_cuenta c) nuevos
    /\ cuenta_actual s' = Some n
    /\ sesion_activa s' = sesion_activa s.
Proof. exact (llamar_marco l s s' n c). Qed.

Lemma operacion_de_sesion_testigo :
  de_sesion (Retirar 1000 dia1 true dia1 (instante dia1)) = true
  /\ cuenta_actual motor_dia1 = Some "123456"%string
  /\ cuentas motor_dia1 !! "123456"%string = Some cuenta_dia1
  /\ exists s',
       llamar (Retirar 1000 dia1 true dia1 (instante dia1)) motor_dia1 = Some s'
       /\ marco motor_dia1 s' "123456" cuenta_dia1.
Proof.
  split; [reflexivity |]. split; [reflexivity |]. split; [reflexivity |].
  eexists. split; [vm_compute; reflexivity |].
  apply (operacion_de_sesion (Retirar 1000 dia1 true dia1 (instante dia1)) motor_dia1 _
           "123456"%string cuenta_dia1 eq_refl eq_refl eq_refl).
  vm_compute. reflexivity.
Defined.

(** X10.  While the user menu is on screen, no call it makes raises: the session
    is bound to an account of the dictionary in every state the program
    reaches, so [self.cuenta_actual] is never [None] there. *)
Theorem sin_excepcion_en_sesion x l :
  alcanzable x ->
  pantalla x = MenuUsuario ->
  de_sesion l = true ->
  is_Some (llamar l (cajero x)).
Proof.
  intros Ha Hp Hl.
  destruct (ProgramaProps.alcanzable_sesion_en_regla x Ha Hp) as (n & c & Hn & Hc & _).
  destruct l as [ | monto hoy1 confirma hoy2 ahora | monto confirma ahora | ahora
                | pa pn pc ahora | | | | ]; try discriminate; cbn [llamar].
  - unfold procesar_retiro. rewrite Hn. cbn [mbind option_bind].
    rewrite Hc. cbn [mbind option_bind].
    destruct (puede_retirar monto hoy1 c) as [[puede msg] c1].
    destruct puede; cbn [negb]; [| eexists; reflexivity].
    destruct confirma; [| eexists; reflexivity].
    destruct (retirar monto hoy2 c1) as [[] c2]; eexists; reflexivity.
  - unfold procesar_deposito. destruct monto as [m |]; [| eexists; reflexivity].
    destruct (m =? 0); [eexists; reflexivity |].
    destruct confirma; [| eexists; reflexivity].
    rewrite Hn. cbn [mbind option_bind]. rewrite Hc. cbn [mbind option_bind].
    destruct (depositar m c) as [[] c1]; eexists; reflexivity.
  - unfold consultar_saldo. rewrite Hn. cbn [mbind option_bind].
    rewrite Hc. eexists; reflexivity.
  - unfold CajeroAutomatico.cambiar_pin.
    destruct (Texto.vacio pa); [eexists; reflexivity |].
    destruct (Texto.vacio pn); [eexists; reflexivity |].
    destruct (bool_decide _); [eexists; reflexivity |].
    rewrite Hn. cbn [mbind option_bind]. rewrite Hc. cbn [mbind option_bind].
    destruct (CuentaUsuario.cambiar_pin pa pn c) as [[] c1]; eexists; reflexivity.
Qed.

Lemma sin_excepcion_en_sesion_testigo :
  exists x,
    pasos [entrada_pin_correcto] sistema_demo = Some x
    /\ pantalla x = MenuUsuario
    /\ de_sesion (Consultar (instante dia2)) = true
    /\ is_Some (llamar (Consultar (instante dia2)) (cajero x)).
Proof.
  eexists. split; [vm_compute; reflexivity |].
  split; [reflexivity |]. split; [reflexivity |].
  apply sin_excepcion_en_sesion; [| reflexivity | reflexivity].
  apply (alc_paso sistema_demo entrada_pin_correcto); [| vm_compute; reflexivity].
  apply (alc_arranque GestorDatos.NoExiste (instante dia1)). vm_compute. reflexivity.
Defined.

End SesionExtras.


(** ** Authentication composed with the change of PIN and the unlocking *)
Module AccesoExtras.
Import CuentaUsuario CajeroAutomatico AdministradorATM Motor Programa Invariantes Escenario
  Auditoria.

Lemma formato_no_vacio pin :
  SistemaSeguridad.validar_formato_pin pin = true -> Texto.vacio pin = false.
Proof.
  intros H. apply CuentaProps.validar_formato_pin_sii in H as [H _].
  destruct pin; [discriminate | reflexivity].
Qed.

(** The right PIN at the first prompt. *)
Lemma login_con_pin n pin resto ahora s c :
  cuentas s !! n = Some c ->
  bloqueada c = false ->
  Texto.vacio pin = false ->
  CuentaUsuario.verificar_pin pin c = true ->
  autenticar_usuario n (pin :: resto) ahora s
  = (true,
     CajeroAutomatico.mk (<[n := con_intentos_fallidos 0 c]> (cuentas s))
       (transacciones s
          ++ [Transaccion.mk ahora LOGIN 0 EXITOSA (numero_cuenta c) "Login exitoso"])
       (Some n) true).
Proof.
  intros Hc Hb Hp Hv. unfold autenticar_usuario. rewrite Hc, Hb.
  unfold INTENTOS_PIN_MAXIMOS. cbn [seq pedir_pin hd]. rewrite Hp, Hc, Hv.
  unfold registrar_transaccion, cuenta_sesion, poner_cuenta, con_cuentas, con_transacciones,
    con_sesion.
  cbn [cuenta_actual cuentas transacciones sesion_activa mbind option_bind].
  rewrite lookup_insert_eq. reflexivity.
Qed.

(** X11.  After a change of PIN that the account accepts, the new PIN opens the
    session of the account at its next authentication. *)
Theorem login_tras_cambio_de_pin pin_actual pin_nuevo ahora ahora2 s n c :
  cuenta_actual s = Some n ->
  cuentas s !! n = Some c ->
  bloqueada c = false ->
  Texto.vacio pin_actual = false ->
  CuentaUsuario.verificar_pin pin_actual c = true ->
  SistemaSeguridad.validar_formato_pin pin_nuevo = true ->
  exists s1,
    CajeroAutomatico.cambiar_pin pin_actual pin_nuevo pin_nuevo ahora s = Some s1
    /\ cuentas s1 = <[n := con_pin_hash (SistemaSeguridad.hash_pin pin_nuevo) c]> (cuentas s)
    /\ last (transacciones s1)
       = Some (Transaccion.mk ahora CAMBIO_PIN 0 EXITOSA (numero_cuenta c) "")
    /\ fst (autenticar_usuario n [pin_nuevo] ahora2 s1) = true.
Proof.
  intros Hn Hc Hb Ha Hv Hf. pose proof (formato_no_vacio _ Hf) as Hnv.
  unfold CajeroAutomatico.cambiar_pin. rewrite Ha, Hnv.
  rewrite bool_decide_eq_false_2 by (intros H; apply H; reflexivity).
  rewrite Hn. cbn [mbind option_bind]. rewrite Hc. cbn [mbind option_bind].
  unfold CuentaUsuario.cambiar_pin. rewrite Hv, Hf. cbn [andb].
  eexists. split; [reflexivity |].
  unfold registrar_transaccion, cuenta_sesion, poner_cuenta, con_cuentas, con_transacciones.
  cbn [cuenta_actual cuentas transacciones sesion_activa]. rewrite Hn.
  cbn [mbind option_bind]. rewrite lookup_insert_eq.
  split; [reflexivity |]. split; [apply last_snoc |].
  erewrite login_con_pin; [reflexivity | cbn [cuentas]; apply lookup_insert_eq
                          | exact Hb | exact Hnv |].
  unfold CuentaUsuario.verificar_pin, SistemaSeguridad.verificar_pin. cbn [pin_hash con_pin_hash].
  apply bool_decide_eq_true_2. reflexivity.
Qed.

Lemma login_tras_cambio_de_pin_testigo :
  cuenta_actual motor_dia1 = Some "123456"%string
  /\ cuentas motor_dia1 !! "123456"%string = Some cuenta_dia1
  /\ bloqueada cuenta_dia1 = false
  /\ Texto.vacio "1234" = false
  /\ CuentaUsuario.verificar_pin "1234" cuenta_dia1 = true
  /\ SistemaSeguridad.validar_formato_pin "4321" = true
  /\ exists s1,
       CajeroAutomatico.cambiar_pin "1234" "4321" "4321" (instante dia1) motor_dia1 = Some s1
       /\ fst (autenticar_usuario "123456" ["4321"%string] (instante dia2) s1) = true.
Proof.
  split; [reflexivity |]. split; [reflexivity |]. split; [reflexivity |].
  split; [reflexivity |]. split; [vm_compute; reflexivity |]. split; [reflexivity |].
  destruct (login_tras_cambio_de_pin "1234" "4321" (instante dia1) (instante dia2)
              motor_dia1 "123456"%string cuenta_dia1)
    as (s1 & H1 & _ & _ & H4);
    [reflexivity | reflexivity | reflexivity | reflexivity | vm_compute; reflexivity
    | reflexivity |].
  exists s1. split; [exact H1 | exact H4].
Defined.

(** X12.  A locked account refuses the right PIN and the refusal leaves the
    engine exactly as it was, with no record; an unlocking the administrator
    declines changes nothing; after the unlocking the administrator confirms,
    the account has no failed attempt and the right PIN opens its session. *)
Theorem login_tras_desbloqueo n pin ahora s c :
  cuentas s !! n = Some c ->
  bloqueada c = true ->
  Texto.vacio pin = false ->
  CuentaUsuario.verificar_pin pin c = true ->
  autenticar_usuario n [pin] ahora s = (false, s)
  /\ desbloquear_cuenta n false s = s
  /\ cuentas (desbloquear_cuenta n true s)
     = <[n := con_intentos_fallidos 0 (con_bloqueada false c)]> (cuentas s)
  /\ fst (autenticar_usuario n [pin] ahora (desbloquear_cuenta n true s)) = true.
Proof.
  intros Hc Hb Hp Hv.
  split; [unfold autenticar_usuario; rewrite Hc, Hb; reflexivity |].
  unfold desbloquear_cuenta. rewrite Hc, Hb. cbn [negb].
  split; [reflexivity |]. split; [reflexivity |].
  erewrite login_con_pin; [reflexivity | cbn [cuentas poner_cuenta con_cuentas];
                           apply lookup_insert_eq | reflexivity | exact Hp | exact Hv].
Qed.

Lemma login_tras_desbloqueo_testigo :
  exists s c,
    pasos [entrada_bloqueo] sistema_demo = Some (Programa.mk MenuPrincipal s)
    /\ cuentas s !! "123456"%string = Some c
    /\ bloqueada c = true
    /\ Texto.vacio "1234" = false
    /\ CuentaUsuario.verificar_pin "1234" c = true
    /\ autenticar_usuario "123456" ["1234"%string] (instante dia2) s = (false, s)
    /\ fst (autenticar_usuario "123456" ["1234"%string] (instante dia2)
              (desbloquear_cuenta "123456" true s)) = true.
Proof.
  eexists. eexists. split; [vm_compute; reflexivity |].
  split; [vm_compute; reflexivity |]. split; [reflexivity |]. split; [reflexivity |].
  split; [vm_compute; reflexivity |].
  match goal with
  | |- autenticar_usuario ?n [?p] ?a ?s = _ /\ _ =>
      destruct (login_tras_desbloqueo n p a s _ ltac:(vm_compute; reflexivity) eq_refl eq_refl
                  ltac:(vm_compute; reflexivity)) as (H1 & _ & _ & H4)
  end.
  split; [exact H1 | exact H4].
Defined.

Lemma salvo_intentos_refl c : salvo_intentos c c.
Proof. destruct c; reflexivity. Qed.

Lemma salvo_intentos_trans c1 c2 c3 :
  salvo_intentos c1 c2 -> salvo_intentos c2 c3 -> salvo_intentos c1 c3.
Proof.
  unfold salvo_intentos. destruct c1, c2, c3. cbn. intros [= -> -> -> -> -> ->] [= -> -> -> -> -> ->].
  reflexivity.
Qed.

Lemma pedir_pin_salvo_intentos intentos : forall pins n ahora s c,
  cuentas s !! n = Some c ->
  exists c',
    cuentas (snd (pedir_pin intentos pins n ahora s)) = <[n := c']> (cuentas s)
    /\ salvo_intentos c c'.
Proof.
  induction intentos as [| i r IH]; intros pins n ahora s c Hc.
  - exists c. rewrite (insert_id _ _ _ Hc). split; [reflexivity | apply salvo_intentos_refl].
  - cbn [pedir_pin].
    destruct (Texto.vacio _);
      [exists c; rewrite (insert_id _ _ _ Hc); split;
       [reflexivity | apply salvo_intentos_refl] |].
    rewrite Hc. destruct (CuentaUsuario.verificar_pin _ c).
    + cbn [snd]. eexists. split; [reflexivity |]. destruct c; reflexivity.
    + destruct (_ >? 0).
      * destruct (IH (tl pins) n ahora
                    (poner_cuenta n (con_intentos_fallidos (intentos_fallidos c + 1) c) s)
                    (con_intentos_fallidos (intentos_fallidos c + 1) c))
          as (c' & E & S); [apply lookup_insert_eq |].
        exists c'. rewrite E. cbn [poner_cuenta con_cuentas cuentas].
        rewrite insert_insert_eq. split; [reflexivity |].
        eapply salvo_intentos_trans; [| exact S]. destruct c; reflexivity.
      * destruct (IH (tl pins) n ahora
                    (registrar_transaccion ahora LOGIN 0 FALLIDA
                       "Cuenta bloqueada por intentos fallidos"
                       (poner_cuenta n
                          (con_bloqueada true
                             (con_intentos_fallidos (intentos_fallidos c + 1) c)) s))
                    (con_bloqueada true (con_intentos_fallidos (intentos_fallidos c + 1) c)))
          as (c' & E & S); [apply lookup_insert_eq |].
        exists c'. rewrite E. cbn [registrar_transaccion con_transacciones poner_cuenta
          con_cuentas cuentas].
        rewrite insert_insert_eq. split; [reflexivity |].
        eapply salvo_intentos_trans; [| exact S]. destruct c; reflexivity.
Qed.

(** X13.  An authentication, whatever is typed, adds and removes no account, and
    changes at most the lock and the failed attempts of the account named:
    not its PIN, its balance, its totals of the day or its dates, and nothing
    of any other account. *)
Theorem autenticar_solo_toca_intentos n pins ahora s k c :
  cuentas s !! k = Some c ->
  exists c',
    cuentas (snd (autenticar_usuario n pins ahora s)) !! k = Some c'
    /\ c' = con_bloqueada (bloqueada c') (con_intentos_fallidos (intentos_fallidos c') c)
    /\ (k <> n -> c' = c)
    /\ dom (cuentas (snd (autenticar_usuario n pins ahora s))) = dom (cuentas s).
Proof.
  intros Hk. unfold autenticar_usuario.
  assert (exists c', cuentas s !! k = Some c' /\ salvo_intentos c c' /\ (k <> n -> c' = c)
                     /\ dom (cuentas s) = dom (cuentas s)) as Hnada.
  { exists c. split; [exact Hk |]. split; [apply salvo_intentos_refl |]. split; reflexivity. }
  destruct (cuentas s !! n) as [cn |] eqn:Hn; [| exact Hnada].
  destruct (bloqueada cn); [exact Hnada |].
  destruct (pedir_pin_salvo_intentos (seq 0 INTENTOS_PIN_MAXIMOS) pins n ahora s cn Hn)
    as (c' & E & S).
  rewrite E. destruct (decide (k = n)) as [-> | Hne].
  - exists c'. rewrite lookup_insert_eq. rewrite Hn in Hk. injection Hk as ->.
    split; [reflexivity |]. split; [exact S |]. split; [intros H; destruct H; reflexivity |].
    apply dom_insert_lookup_L. eexists; exact Hn.
  - exists c. rewrite lookup_insert_ne by congruence.
    split; [exact Hk |]. split; [apply salvo_intentos_refl |]. split; [reflexivity |].
    apply dom_insert_lookup_L. eexists; exact Hn.
Qed.

Lemma autenticar_solo_toca_intentos_testigo :
  cuentas motor_demo !! "123456"%string = Some cuenta_demo
  /\ exists c',
       cuentas (snd (autenticar_usuario "123456" tres_fallos (instante dia1) motor_demo))
         !! "123456"%string = Some c'
       /\ c' = con_bloqueada true (con_intentos_fallidos 3 cuenta_demo).
Proof.
  split; [reflexivity |].
  destruct (autenticar_solo_toca_intentos "123456" tres_fallos (instante dia1) motor_demo
              "123456"%string cuenta_demo eq_refl) as (c' & H1 & H2 & _).
  exists c'. split; [exact H1 |].
  vm_compute in H1. injection H1 as <-. vm_compute. reflexivity.
Defined.

End AccesoExtras.

(** ** The data file: records, loading, saving again *)
Module PersistenciaExtras.
Import CuentaUsuario CajeroAutomatico AdministradorATM Motor Invariantes Escenario
  GestorDatos Archivos.

Lemma motor_guardar_y_cargar_testigo :
  datetime_valido (instante dia1) = true
  /\ init NoExiste (instante dia1) = Some motor_demo
  /\ Forall (fun l => llamada_valida l = true) llamadas_escenario
  /\ exists s,
       ejecutar llamadas_escenario motor_demo = Some s
       /\ cargar_datos (guardar_datos (cuentas s) (transacciones s))
          = Devuelve (cuentas s) (ultimas 1000 (transacciones s)).
Proof.
  assert (Forall (fun l => llamada_valida l = true) llamadas_escenario) as Hl
    by (repeat constructor).
  split; [reflexivity |]. split; [vm_compute; reflexivity |]. split; [exact Hl |].
  eexists. split; [vm_compute; reflexivity |].
  apply (EstadoProps.motor_guardar_y_cargar NoExiste (instante dia1) llamadas_escenario
           motor_demo); [reflexivity | vm_compute; reflexivity | exact Hl |].
  vm_compute. reflexivity.
Defined.

(** X15.  The record of an account reads back as the account, when its dates
    are dates of the calendar: [from_dict] undoes [to_dict] on every field,
    the absent day of the last withdrawal included. *)
Theorem cuenta_ida_y_vuelta c :
  cuenta_valida c = true -> CuentaUsuario.from_dict (CuentaUsuario.to_dict c) = Ok c.
Proof. apply GestorProps.cuenta_from_dict_to_dict. Qed.

Lemma cuenta_ida_y_vuelta_testigo :
  cuenta_valida cuenta_dia1 = true
  /\ CuentaUsuario.from_dict (CuentaUsuario.to_dict cuenta_dia1) = Ok cuenta_dia1.
Proof.
  split; [reflexivity |]. apply (cuenta_ida_y_vuelta cuenta_dia1). reflexivity.
Defined.

(** X16.  The record of a transaction reads back as the transaction, when its
    time is a time of the calendar. *)
Theorem transaccion_ida_y_vuelta x :
  transaccion_valida x = true -> Transaccion.from_dict (Transaccion.to_dict x) = Ok x.
Proof. apply GestorProps.transaccion_from_dict_to_dict. Qed.

Lemma transaccion_ida_y_vuelta_testigo :
  transaccion_valida (Transaccion.mk (instante dia1) RETIRO 50000 EXITOSA "123456" "") = true
  /\ Transaccion.from_dict
       (Transaccion.to_dict (Transaccion.mk (instante dia1) RETIRO 50000 EXITOSA "123456" ""))
     = Ok (Transaccion.mk (instante dia1) RETIRO 50000 EXITOSA "123456" "").
Proof.
  split; [reflexivity |].
  apply (transaccion_ida_y_vuelta
           (Transaccion.mk (instante dia1) RETIRO 50000 EXITOSA "123456" "")).
  reflexivity.
Defined.

Lemma fromisoformat_en_modelo v : Json.fromisoformat v <> SinModelo.
Proof.
  destruct v; cbn [Json.fromisoformat]; try discriminate.
  destruct (Fechas.fromisoformat s); discriminate.
Qed.

Lemma tipo_en_modelo v : TipoTransaccion_de v <> SinModelo.
Proof.
  destruct v; cbn [TipoTransaccion_de]; try discriminate. repeat (destruct (decide _); [discriminate |]).
  discriminate.
Qed.

Lemma estado_en_modelo v : EstadoTransaccion_de v <> SinModelo.
Proof.
  destruct v; cbn [EstadoTransaccion_de]; try discriminate. repeat (destruct (decide _); [discriminate |]).
  discriminate.
Qed.

Ltac fuera_de_modelo H :=
  exfalso;
  first [ exact (fromisoformat_en_modelo _ H)
        | exact (tipo_en_modelo _ H)
        | exact (estado_en_modelo _ H) ].

Ltac por_claves d :=
  repeat match goal with
         | |- exists e, Lanza _ = Lanza e => eexists; reflexivity
         | |- context [assoc ?k d] =>
             let E := fresh "E" in destruct (assoc k d) eqn:E; cbn
         | |- context [if truthy ?v then _ else _] => destruct (truthy v); cbn
         | |- context [Json.fromisoformat ?v] =>
             let E := fresh "E" in
             destruct (Json.fromisoformat v) eqn:E; cbn; [| | fuera_de_modelo E]
         | |- context [TipoTransaccion_de ?v] =>
             let E := fresh "E" in
             destruct (TipoTransaccion_de v) eqn:E; cbn; [| | fuera_de_modelo E]
         | |- context [EstadoTransaccion_de ?v] =>
             let E := fresh "E" in
             destruct (EstadoTransaccion_de v) eqn:E; cbn; [| | fuera_de_modelo E]
         end.

(** X17.  A record that lacks one of the keys [from_dict] reads never becomes an
    account or a transaction with a default in its place: [from_dict] raises. *)
Theorem registro_incompleto d k :
  assoc k d = None ->
  (k ∈ claves_cuenta -> exists e, CuentaUsuario.from_dict (JDict d) = Lanza e)
  /\ (k ∈ claves_transaccion -> exists e, Transaccion.from_dict (JDict d) = Lanza e).
Proof.
  intros Hk. split; intros Hin.
  - unfold claves_cuenta in Hin. unfold CuentaUsuario.from_dict, get. cbn.
    por_claves d; exfalso; set_unfold; intuition congruence.
  - unfold claves_transaccion in Hin. unfold Transaccion.from_dict, get. cbn.
    por_claves d; exfalso; set_unfold; intuition congruence.
Qed.

Lemma registro_incompleto_testigo :
  assoc "saldo"%string [("numero_cuenta"%string, JStr "123456")] = None
  /\ exists e, CuentaUsuario.from_dict (JDict [("numero_cuenta"%string, JStr "123456")])
               = Lanza e.
Proof.
  split; [reflexivity |].
  apply (proj1 (registro_incompleto [("numero_cuenta"%string, JStr "123456")]
                  "saldo"%string eq_refl)).
  unfold claves_cuenta. set_solver.
Defined.

Lemma lookup_indexar_ultimo cs : forall acc k,
  indexar cs acc !! k
  = match last (con_numero k cs) with Some c => Some c | None => acc !! k end.
Proof.
  induction cs as [| c r IH]; intros acc k; [reflexivity |].
  unfold indexar. cbn [fold_left]. fold (indexar r (<[numero_cuenta c := c]> acc)).
  rewrite IH. unfold con_numero.
  destruct (decide (numero_cuenta c = k)) as [E | E].
  - rewrite filter_cons_True by exact E. rewrite last_cons.
    destruct (last (filter _ r)); [reflexivity |]. rewrite E. apply lookup_insert_eq.
  - rewrite filter_cons_False by exact E.
    destruct (last (filter _ r)); [reflexivity |]. apply lookup_insert_ne, E.
Qed.

(** X18.  A data file of well-formed records loads in full: the transactions in
    their order, none dropped whatever their count, and under each number the
    last record of the file with that number, so that of two records with one
    number the later replaces the earlier. *)
Theorem cargar_documento cs ts :
  Forall (fun c => cuenta_valida c = true) cs ->
  Forall (fun x => transaccion_valida x = true) ts ->
  exists cuentas,
    cargar_datos (documento cs ts) = Devuelve cuentas ts
    /\ forall k, cuentas !! k = last (con_numero k cs).
Proof.
  intros Hc Ht. exists (indexar cs ∅). split.
  - unfold cargar_datos, documento, cuerpo.
    destruct (GestorProps.get_default_documento
                (JList (map CuentaUsuario.to_dict cs))
                (JList (map Transaccion.to_dict ts))) as [-> ->].
    cbn [mbind resultado_bind iterar].
    rewrite (GestorProps.cargar_cuentas_to_dict _ _ Hc).
    rewrite (GestorProps.cargar_transacciones_to_dict _ _ Ht). reflexivity.
  - intros k. rewrite lookup_indexar_ultimo, lookup_empty.
    destruct (last (con_numero k cs)); reflexivity.
Qed.

Lemma cargar_documento_testigo :
  Forall (fun c => cuenta_valida c = true) [cuenta_demo; cuenta_dia1]
  /\ Forall (fun x => transaccion_valida x = true) []
  /\ cargar_datos (documento [cuenta_demo; cuenta_dia1] [])
     = Devuelve {[ "123456"%string := cuenta_dia1 ]} [].
Proof.
  assert (Forall (fun c => cuenta_valida c = true) [cuenta_demo; cuenta_dia1]) as Hc
    by (repeat constructor).
  split; [exact Hc |]. split; [constructor |].
  destruct (cargar_documento [cuenta_demo; cuenta_dia1] [] Hc (Forall_nil_2 _))
    as (cuentas & -> & H).
  f_equal. apply map_eq. intros k. rewrite H.
  destruct (decide (k = "123456"%string)) as [-> | Hne].
  - rewrite lookup_singleton_eq. reflexivity.
  - rewrite lookup_singleton_ne by congruence. unfold con_numero.
    rewrite filter_cons_False by (intros E; apply Hne; rewrite <- E; reflexivity).
    rewrite filter_cons_False by (intros E; apply Hne; rewrite <- E; reflexivity).
    reflexivity.
Defined.

(** X19.  What [cargar_datos] returns, whatever the file holds and wherever the
    loading stopped, is a dictionary that holds each account under the
    account's own number, with dates of the calendar in the accounts and in
    the transactions: a state that [guardar_datos] writes back and
    [cargar_datos] reads again as it is. *)
Theorem cargar_datos_en_regla f cuentas transacciones :
  cargar_datos f = Devuelve cuentas transacciones ->
  map_Forall (fun k c => numero_cuenta c = k /\ cuenta_valida c = true) cuentas
  /\ Forall (fun x => transaccion_valida x = true) transacciones
  /\ cargar_datos (guardar_datos cuentas transacciones)
     = Devuelve cuentas (ultimas 1000 transacciones).
Proof.
  intros H. destruct (EstadoProps.cargar_datos_guardable f cuentas transacciones H) as [H1 H2].
  split; [exact H1 |]. split; [exact H2 |].
  apply GestorProps.cargar_lo_guardado; assumption.
Qed.

Lemma cargar_datos_en_regla_testigo :
  exists cuentas transacciones,
    cargar_datos documento_truncado = Devuelve cuentas transacciones
    /\ cuentas = {[ "123456"%string := cuenta_demo ]}
    /\ cargar_datos (guardar_datos cuentas transacciones)
       = Devuelve cuentas (ultimas 1000 transacciones).
Proof.
  eexists. eexists. split; [vm_compute; reflexivity |]. split; [reflexivity |].
  apply (cargar_datos_en_regla documento_truncado). vm_compute. reflexivity.
Defined.

Lemma ultimas_ultimas {A} n (l : list A) : ultimas n (ultimas n l) = ultimas n l.
Proof.
  unfold ultimas. rewrite length_skipn.
  replace (length l - (length l - n) - n)%nat with 0%nat by lia. reflexivity.
Qed.

(** X20.  Saving is stable.  The file written from what was loaded out of a
    saved file is that file: the second saving drops no further transaction
    and changes no record. *)
Theorem guardar_tras_cargar cuentas transacciones :
  map_Forall (fun k c => numero_cuenta c = k /\ cuenta_valida c = true) cuentas ->
  Forall (fun x => transaccion_valida x = true) transacciones ->
  exists cuentas' transacciones',
    cargar_datos (guardar_datos cuentas transacciones) = Devuelve cuentas' transacciones'
    /\ guardar_datos cuentas' transacciones' = guardar_datos cuentas transacciones.
Proof.
  intros Hc Ht. exists cuentas, (ultimas 1000 transacciones).
  split; [apply GestorProps.cargar_lo_guardado; assumption |].
  unfold guardar_datos. rewrite ultimas_ultimas. reflexivity.
Qed.

Lemma guardar_tras_cargar_testigo :
  map_Forall (fun k c => numero_cuenta c = k /\ cuenta_valida c = true) (cuentas motor_dia1)
  /\ Forall (fun x => transaccion_valida x = true) (transacciones motor_dia1)
  /\ exists cuentas' transacciones',
       cargar_datos (guardar_datos (cuentas motor_dia1) (transacciones motor_dia1))
       = Devuelve cuentas' transacciones'
       /\ guardar_datos cuentas' transacciones'
          = guardar_datos (cuentas motor_dia1) (transacciones motor_dia1).
Proof.
  assert (map_Forall (fun k c => numero_cuenta c = k /\ cuenta_valida c = true)
            (cuentas motor_dia1)) as Hc.
  { apply map_Forall_singleton. split; reflexivity. }
  assert (Forall (fun x => transaccion_valida x = true) (transacciones motor_dia1)) as Ht
    by (repeat constructor).
  split; [exact Hc |]. split; [exact Ht |].
  exact (guardar_tras_cargar (cuentas motor_dia1) (transacciones motor_dia1) Hc Ht).
Defined.

End PersistenciaExtras.

(** ** The prompt for a PIN and the administrator's listings *)
Module InterfazExtras.
Import CuentaUsuario CajeroAutomatico Programa Invariantes Escenario InterfazUsuario
  Estadisticas.
Local Open Scope Z_scope.



Lemma rev_lookup {A} (l : list A) i :
  (i < length l)%nat -> rev l !! i = l !! (length l - S i)%nat.
Proof.
  intros H. rewrite rev_alt. apply (reverse_lookup l i H).
Qed.

(** X22.  [ver_logs_transacciones] lists the [min(50, N)] most recent of the [N]
    transactions, the most recent first: its line [i] is the transaction
    [N - 1 - i] of the log. *)
Theorem ver_logs_recientes s i :
  (i < Nat.min 50 (length (transacciones s)))%nat ->
  length (ver_logs_transacciones s) = Nat.min 50 (length (transacciones s))
  /\ ver_logs_transacciones s !! i
     = transacciones s !! (length (transacciones s) - 1 - i)%nat.
Proof.
  intros Hi. unfold ver_logs_transacciones.
  assert (length (GestorDatos.ultimas 50 (transacciones s))
          = Nat.min 50 (length (transacciones s))) as Hl
    by apply GestorProps.length_ultimas.
  split; [rewrite length_rev; exact Hl |].
  rewrite rev_lookup by lia. rewrite Hl. unfold GestorDatos.ultimas.
  change (@skipn) with (@drop). rewrite lookup_drop. f_equal. lia.
Qed.

Lemma ver_logs_recientes_testigo :
  (0 < Nat.min 50 (length (transacciones motor_dia1)))%nat
  /\ ver_logs_transacciones motor_dia1 !! 0%nat
     = Some (Transaccion.mk (instante dia1) RETIRO 50000 EXITOSA "123456" "").
Proof.
  split; [vm_compute; lia |].
  rewrite (proj2 (ver_logs_recientes motor_dia1 0 ltac:(vm_compute; lia))).
  reflexivity.
Defined.

Lemma TipoTransaccion_value_inj t1 t2 :
  TipoTransaccion_value t1 = TipoTransaccion_value t2 -> t1 = t2.
Proof. destruct t1, t2; cbn; intros H; try reflexivity; discriminate. Qed.

Lemma tipos_count_desde (l : list Transaccion.t) t : forall m : gmap string nat,
  fold_left
    (fun m trans =>
       <[TipoTransaccion_value (Transaccion.tipo trans)
         := (default 0%nat (m !! TipoTransaccion_value (Transaccion.tipo trans)) + 1)%nat]> m)
    l m !! TipoTransaccion_value t
  = match length (filter (fun x => Transaccion.tipo x = t) l) with
    | O => m !! TipoTransaccion_value t
    | S n => Some (default 0%nat (m !! TipoTransaccion_value t) + S n)%nat
    end.
Proof.
  induction l as [| x r IH]; intros m; [reflexivity |].
  cbn [fold_left]. rewrite IH.
  destruct (decide (Transaccion.tipo x = t)) as [E | E].
  - rewrite filter_cons_True by exact E. rewrite E, lookup_insert_eq. cbn [length default].
    destruct (length (filter _ r)); unfold id; f_equal; lia.
  - rewrite filter_cons_False by exact E. rewrite lookup_insert_ne; [reflexivity |].
    intros H. apply E, TipoTransaccion_value_inj, H.
Qed.

(** X23.  The counts by type in [ver_estadisticas] are right: under the name of
    each type the dictionary holds the number of the day's transactions of that
    type, and it has no entry for a type without a transaction in the day. *)
Theorem tipos_count_cuenta hoy s t :
  tipos_count hoy s !! TipoTransaccion_value t
  = match length (filter (fun x => Transaccion.tipo x = t
                                   /\ to_date (Transaccion.timestamp x) = hoy)
                    (transacciones s)) with
    | O => None
    | S n => Some (S n)
    end.
Proof.
  unfold tipos_count. rewrite tipos_count_desde, lookup_empty. cbn [default].
  unfold transacciones_hoy. rewrite list_filter_filter.
  destruct (length _); reflexivity.
Qed.




Lemma int_str_opciones n :
  (0 < n < 10)%nat -> int (str n) = Ok (Z.of_nat n).
Proof.
  intros H. do 10 (destruct n as [| n]; [try lia; reflexivity |]). lia.
Qed.

(** The option a menu of one to nine options returns. *)
Lemma mostrar_menu_numero opciones : forall turnos opcion,
  (0 < opciones < 10)%nat ->
  mostrar_menu opciones turnos = Ok (Some opcion) ->
  exists n, int opcion = Ok n /\ 1 <= n <= Z.of_nat opciones.
Proof.
  intros turnos opcion Ho. induction turnos as [| t turnos IH]; [discriminate |].
  destruct t as [texto |]; cbn [mostrar_menu].
  - cbv zeta. destruct (Texto.isdigit (strip texto)); [| exact IH].
    destruct (int (strip texto)) as [n | e |] eqn:E; cbn [mbind resultado_bind];
      try discriminate.
    destruct ((1 <=? n) && (n <=? Z.of_nat opciones)) eqn:Hn; [| exact IH].
    intros [= <-]. exists n. split; [exact E | lia].
  - intros [= <-]. exists (Z.of_nat opciones). split; [apply int_str_opciones, Ho | lia].
Qed.

(** X25.  [mostrar_menu] over a list of one to nine options returns only a text
    that [int] reads as the number of one of the options, also when the user
    interrupts: the callers' comparisons and [int(opcion)] never fail on
    it.  The text is the one typed, blanks around it removed, or the number of
    the last option at an interruption. *)
Theorem mostrar_menu_opcion opciones turnos opcion :
  (0 < opciones < 10)%nat ->
  mostrar_menu opciones turnos = Ok (Some opcion) ->
  (exists n, int opcion = Ok n /\ 1 <= n <= Z.of_nat opciones)
  /\ (opcion = str opciones
      \/ exists texto, In (Escribe texto) turnos /\ opcion = strip texto).
Proof.
  intros Ho H. split; [exact (mostrar_menu_numero opciones turnos opcion Ho H) |].
  clear Ho. induction turnos as [| t turnos IH]; [discriminate |].
  assert (mostrar_menu opciones turnos = Ok (Some opcion) ->
          opcion = str opciones
          \/ exists texto, In (Escribe texto) (t :: turnos) /\ opcion = strip texto) as IH'.
  { intros H'. destruct (IH H') as [-> | (texto & Hin & ->)]; [left; reflexivity |].
    right. exists texto. split; [right; exact Hin | reflexivity]. }
  destruct t as [texto |]; cbn [mostrar_menu] in H.
  - cbv zeta in H. destruct (Texto.isdigit (strip texto)); [| exact (IH' H)].
    destruct (int (strip texto)) as [n | e |]; cbn [mbind resultado_bind] in H;
      try discriminate.
    destruct ((1 <=? n) && (n <=? Z.of_nat opciones)); [| exact (IH' H)].
    injection H as <-. right. exists texto. split; [left; reflexivity | reflexivity].
  - injection H as <-. left. reflexivity.
Qed.

Lemma mostrar_menu_opcion_testigo :
  (0 < 5 < 10)%nat
  /\ mostrar_menu 5 [Escribe "9"; Escribe "x"; Escribe " 03 "; Escribe "1"] = Ok (Some "03"%string)
  /\ exists n, int "03" = Ok n /\ 1 <= n <= Z.of_nat 5.
Proof.
  split; [lia |]. split; [reflexivity |].
  apply (mostrar_menu_opcion 5 [Escribe "9"; Escribe "x"; Escribe " 03 "; Escribe "1"]);
    [lia | reflexivity].
Defined.


Lemma mostrar_menu_app opciones antes : forall resto,
  mostrar_menu opciones antes = Ok None ->
  mostrar_menu opciones (antes ++ resto) = mostrar_menu opciones resto.
Proof.
  induction antes as [| t antes IH]; intros resto; [reflexivity |].
  destruct t as [texto |]; cbn [mostrar_menu app]; [| discriminate].
  cbv zeta. destruct (Texto.isdigit (strip texto)); [| apply IH].
  destruct (int (strip texto)) as [n | e |]; cbn [mbind resultado_bind]; try discriminate.
  destruct ((1 <=? n) && (n <=? Z.of_nat opciones)); [discriminate | apply IH].
Qed.

(** X26.  A text of digits of which one is not a decimal digit (a superscript
    two, say), typed at a menu that is still asking, makes [mostrar_menu]
    raise [ValueError]: [isdigit] lets the text through to [int], which
    rejects it, and the loop catches the interruption only. *)
Theorem mostrar_menu_superindice opciones antes texto resto :
  mostrar_menu opciones antes = Ok None ->
  Texto.isdigit (strip texto) = true ->
  Texto.todos_decimales (strip texto) = false ->
  mostrar_menu opciones (antes ++ Escribe texto :: resto) = Lanza ValueError.
Proof.
  intros Ha Hd Hn. rewrite (mostrar_menu_app _ _ _ Ha). cbn [mostrar_menu]. cbv zeta.
  rewrite Hd. unfold int. rewrite Hd, Hn. reflexivity.
Qed.

Lemma mostrar_menu_superindice_testigo :
  mostrar_menu 3 [Escribe "0"; Escribe "x"] = Ok None
  /\ Texto.isdigit (strip (String "178" " ")) = true
  /\ Texto.todos_decimales (strip (String "178" " ")) = false
  /\ mostrar_menu 3 ([Escribe "0"; Escribe "x"] ++ Escribe (String "178" " ") :: [Escribe "1"])
     = Lanza ValueError.
Proof.
  split; [reflexivity |]. split; [reflexivity |]. split; [reflexivity |].
  apply (mostrar_menu_superindice 3 [Escribe "0"; Escribe "x"] (String "178" " ")
           [Escribe "1"]); reflexivity.
Defined.



End InterfazExtras.
